(** * parquet-file-sizes/make-files.py: the sample dataset generator

    A shallow embedding of [make_df] and of the module-level driver that
    calls it four times, together with the parts of itertools, numpy and
    pandas that the script goes through:

    - [np.arange], [astype('str')], [itertools.product], written out;
    - a [DataFrame] as an index length and an ordered list of named, typed
      columns, with [from_records], [df[key]], [df[key] = ...] and [shape];
    - exceptions as a sum type, the global random generator and the file
      system as explicit state.

    The two facilities the script uses as black boxes, the resolution of a
    timedelta unit and the standard-normal sampler, are variables of the
    section that holds [make_df]; [pandas_unit] further down is the unit
    table of pandas, used wherever a concrete facility is needed. *)

From Stdlib Require Import ZArith Ascii String List DecimalString Lia.
From stdpp Require Import gmap strings list list_numbers fin_maps.

Local Open Scope string_scope.
Local Open Scope Z_scope.

(** ** Exceptions and the state-and-exception monad *)

Inductive exn : Type :=
| ValueError (msg : string)
| KeyError (key : string)
| TypeError (msg : string).

Inductive result (A : Type) : Type :=
| Ok (a : A)
| Raise (e : exn).
Arguments Ok {A} a.
Arguments Raise {A} e.

Definition rbind {A B} (r : result A) (k : A → result B) : result B :=
  match r with
  | Ok a => k a
  | Raise e => Raise e
  end.

(** A computation over a store [S] that returns a value or raises. *)
Definition M (S A : Type) : Type := S → result (A * S).

Definition ret {S A} (a : A) : M S A := λ s, Ok (a, s).

Definition bind {S A B} (m : M S A) (k : A → M S B) : M S B :=
  λ s, match m s with
       | Ok (a, s') => k a s'
       | Raise e => Raise e
       end.

(** A pure fallible step inside a stateful computation. *)
Definition lift {S A} (r : result A) : M S A :=
  λ s, match r with
       | Ok a => Ok (a, s)
       | Raise e => Raise e
       end.

Declare Scope py_scope.
Delimit Scope py_scope with py.
Notation "x <- m ;; k" := (bind m (λ x, k))
  (at level 100, m at next level, right associativity) : py_scope.
Notation "m ;; k" := (bind m (λ _, k))
  (at level 100, right associativity) : py_scope.

(** ** Python and numpy values *)

(** [len(l)] as a Python integer. *)
Definition len {A} (l : list A) : Z := Z.of_nat (length l).

(** [np.arange(start, stop)]: the integers [start, start+1, ..., stop-1],
    empty when [stop <= start]. *)
Definition arange (start stop : Z) : list Z := seqZ start (stop - start).

(** [str(z)] for an integer: decimal digits, a leading minus sign for a
    negative number. *)
Definition str (z : Z) : string := NilZero.string_of_int (Z.to_int z).

(** [a.astype('str')] on an integer array. *)
Definition astype_str (a : list Z) : list string := map str a.

(** ** Timestamps

    A pandas [Timestamp] holds nanoseconds since 1970-01-01T00:00, and a
    [Timedelta] a number of nanoseconds, both in 64 bits.  The timestamps
    of this script stay far inside that range ([timestamps_in_range]), so
    they are integers here and the sum of two is their sum. *)

Abbreviation Timestamp := Z.

Definition ns_per_day : Z := 86400 * 1000000000.

(** Days from 1970-01-01 to the proleptic Gregorian date [y-m-d]. *)
Definition days_from_civil (y m d : Z) : Z :=
  let y' := if m <=? 2 then y - 1 else y in
  let era := y' / 400 in
  let yoe := y' - era * 400 in
  let mp := (m + 9) mod 12 in
  let doy := (153 * mp + 2) / 5 + d - 1 in
  let doe := yoe * 365 + yoe / 4 - yoe / 100 + doy in
  era * 146097 + doe - 719468.

(** The inverse: the civil date of a day number. *)
Definition civil_from_days (z : Z) : Z * Z * Z :=
  let z' := z + 719468 in
  let era := z' / 146097 in
  let doe := z' - era * 146097 in
  let yoe := (doe - doe / 1460 + doe / 36524 - doe / 146096) / 365 in
  let doy := doe - (365 * yoe + yoe / 4 - yoe / 100) in
  let mp := (5 * doy + 2) / 153 in
  let d := doy - (153 * mp + 2) / 5 + 1 in
  let m := if mp <? 10 then mp + 3 else mp - 9 in
  let y := yoe + era * 400 in
  (if m <=? 2 then y + 1 else y, m, d).

(** Midnight at the start of a civil date. *)
Definition timestamp_of_date (y m d : Z) : Timestamp :=
  days_from_civil y m d * ns_per_day.

(** The civil date a timestamp falls on. *)
Definition date_of_timestamp (t : Timestamp) : Z * Z * Z :=
  civil_from_days (t / ns_per_day).

(** A timestamp moved by [k] calendar days, by [k] calendar weeks. *)
Definition add_days (t : Timestamp) (k : Z) : Timestamp := t + k * ns_per_day.
Definition add_weeks (t : Timestamp) (k : Z) : Timestamp := t + k * (7 * ns_per_day).

(** ** itertools.product

    [product(p1, ..., pk)] starts from the one empty tuple and extends every
    partial tuple by every element of the next pool, pool after pool:
    [result = [x + [y] for x in result for y in pool]].  One such extension
    step is [list_prod]; a Rocq tuple [(a, b, c, d, e, f)] is the nesting
    [(((((a, b), c), d), e), f)] that the steps build. *)

Abbreviation Record6 := (Timestamp * Z * string * string * string * Z)%type.

(** The fields of a record, by the column each one fills. *)
Definition r_nowcast_date (r : Record6) : Timestamp := r.1.1.1.1.1.
Definition r_horizon (r : Record6) : Z := r.1.1.1.1.2.
Definition r_location (r : Record6) : string := r.1.1.1.2.
Definition r_lineage (r : Record6) : string := r.1.1.2.
Definition r_output_type (r : Record6) : string := r.1.2.
Definition r_output_type_id (r : Record6) : Z := r.2.

Definition product6 (p1 : list Timestamp) (p2 : list Z) (p3 p4 p5 : list string)
    (p6 : list Z) : list Record6 :=
  list_prod (list_prod (list_prod (list_prod (list_prod p1 p2) p3) p4) p5) p6.

(** ** DataFrame

    The columns of a frame are typed arrays that share one [RangeIndex];
    the frame keeps them in insertion order under their names.  [Value] is
    the type of the floating-point cells. *)

Section Frame.
Context {Value : Type}.

Inductive Series : Type :=
| DatetimeSeries (a : list Timestamp)
| TimedeltaSeries (a : list Z)
| IntSeries (a : list Z)
| StrSeries (a : list string)
| FloatSeries (a : list Value).

Definition series_len (s : Series) : Z :=
  match s with
  | DatetimeSeries a => len a
  | TimedeltaSeries a => len a
  | IntSeries a => len a
  | StrSeries a => len a
  | FloatSeries a => len a
  end.

Record DataFrame : Type := mkDataFrame {
  index : Z;                          (* RangeIndex(index) *)
  columns : list (string * Series)
}.

(** [df.shape]: the number of rows and the number of columns. *)
Definition shape (df : DataFrame) : Z * Z := (index df, len (columns df)).

Fixpoint col_lookup (key : string) (cols : list (string * Series)) : option Series :=
  match cols with
  | [] => None
  | (k, s) :: rest => if String.eqb k key then Some s else col_lookup key rest
  end.

(** Replaces the column of that name where there is one, appends otherwise. *)
Fixpoint col_set (key : string) (s : Series) (cols : list (string * Series))
    : list (string * Series) :=
  match cols with
  | [] => [(key, s)]
  | (k, s0) :: rest =>
      if String.eqb k key then (k, s) :: rest else (k, s0) :: col_set key s rest
  end.

(** [df[key]] *)
Definition getitem (df : DataFrame) (key : string) : result Series :=
  match col_lookup key (columns df) with
  | Some s => Ok s
  | None => Raise (KeyError key)
  end.

(** [df[key] = s]: the values must be as many as the index is long. *)
Definition setitem (df : DataFrame) (key : string) (s : Series) : result DataFrame :=
  if series_len s =? index df
  then Ok (mkDataFrame (index df) (col_set key s (columns df)))
  else Raise (ValueError "Length of values does not match length of index").

(** [pd.DataFrame.from_records(data, columns=names)] for records of six
    fields: one typed column per field, named in order. *)
Definition from_records (data : list Record6) (names : list string) : result DataFrame :=
  match names with
  | [c1; c2; c3; c4; c5; c6] =>
      Ok (mkDataFrame (len data)
            [ (c1, DatetimeSeries (map r_nowcast_date data));
              (c2, IntSeries (map r_horizon data));
              (c3, StrSeries (map r_location data));
              (c4, StrSeries (map r_lineage data));
              (c5, StrSeries (map r_output_type data));
              (c6, IntSeries (map r_output_type_id data)) ])
  | _ => Raise (ValueError "6 columns passed, passed data had a different number of columns")
  end.

(** [a + b] on two columns of one frame, element by element.  Only the
    combination the script uses, a datetime column plus a timedelta
    column, is modelled; this model answers any other with [TypeError]. *)
Definition series_add (a b : Series) : result Series :=
  match a, b with
  | DatetimeSeries x, TimedeltaSeries y => Ok (DatetimeSeries (zip_with Z.add x y))
  | _, _ => Raise (TypeError "unsupported operand type(s) for +")
  end.

(** One cell of a frame. *)
Inductive Cell : Type :=
| CTime (t : Timestamp)
| CDelta (ns : Z)
| CInt (z : Z)
| CStr (s : string)
| CFloat (v : Value).

Definition series_at (s : Series) (i : nat) : option Cell :=
  match s with
  | DatetimeSeries a => CTime <$> a !! i
  | TimedeltaSeries a => CDelta <$> a !! i
  | IntSeries a => CInt <$> a !! i
  | StrSeries a => CStr <$> a !! i
  | FloatSeries a => CFloat <$> a !! i
  end.

(** [df.at[i, key]], [None] where pandas raises [KeyError]. *)
Definition cell_at (df : DataFrame) (i : nat) (key : string) : option Cell :=
  match col_lookup key (columns df) with
  | Some s => series_at s i
  | None => None
  end.

(** [df.drop(columns=[key])] *)
Definition drop (df : DataFrame) (key : string) : DataFrame :=
  mkDataFrame (index df)
    (List.filter (λ c : string * Series, negb (String.eqb c.1 key)) (columns df)).

(** [list(df.columns)] *)
Definition column_names (df : DataFrame) : list string := map fst (columns df).
End Frame.
Arguments Series : clear implicits.
Arguments DataFrame : clear implicits.
Arguments Cell : clear implicits.

(** Row [i] of a frame in the enumeration order of the cross product for
    [N] samples, 30 lineages, 50 locations and horizons counted up from
    [h0]: the sample index runs fastest, then the lineage, then the
    location, and the horizon slowest; date and output type are constant. *)
Definition row_in_order {Value} (df : DataFrame Value) (date : Timestamp)
    (h0 N : Z) (i : Z) : Prop :=
  cell_at df (Z.to_nat i) "nowcast_date" = Some (CTime date) ∧
  cell_at df (Z.to_nat i) "horizon" = Some (CInt (h0 + i / (50 * 30 * N))) ∧
  cell_at df (Z.to_nat i) "location" = Some (CStr (str (i / (30 * N) mod 50))) ∧
  cell_at df (Z.to_nat i) "lineage" = Some (CStr (str (i / N mod 30))) ∧
  cell_at df (Z.to_nat i) "output_type" = Some (CStr "sample") ∧
  cell_at df (Z.to_nat i) "output_type_id" = Some (CInt (i mod N)).

(** The decimal strings "0" to "49" and "0" to "29", written out. *)
Definition strings_0_29 : list string :=
  [ "0"; "1"; "2"; "3"; "4"; "5"; "6"; "7"; "8"; "9";
    "10"; "11"; "12"; "13"; "14"; "15"; "16"; "17"; "18"; "19";
    "20"; "21"; "22"; "23"; "24"; "25"; "26"; "27"; "28"; "29" ].

Definition strings_0_49 : list string :=
  strings_0_29 ++
  [ "30"; "31"; "32"; "33"; "34"; "35"; "36"; "37"; "38"; "39";
    "40"; "41"; "42"; "43"; "44"; "45"; "46"; "47"; "48"; "49" ].

(** How many entries of [a] satisfy [p]. *)
Definition count {A} (p : A → bool) (a : list A) : Z := len (List.filter p a).

(** How the statements of a file are run: [python make-files.py] runs them
    as a script; typed or pasted at the prompt they run interactively. *)
Inductive Mode : Type := Script | Interactive.

(** [repr] of a shape, a tuple of two integers. *)
Definition repr_shape (s : Z * Z) : string :=
  "(" ++ str s.1 ++ ", " ++ str s.2 ++ ")".

(** ** The generator *)

Section Generator.
Context {Value RngState : Type}.

(** The unit resolution inside [pd.to_timedelta]: the number of
    nanoseconds in one unit of that name, or the exception that pandas
    raises for the name. *)
Variable timedelta_unit : string → result Z.

(** One draw from the standard-normal sampler of the global generator. *)
Variable draw : RngState → Value * RngState.

(** [pd.to_timedelta(arg, unit)] on an integer column: the unit is
    resolved first, then every entry is that many units. *)
Definition to_timedelta (arg : Series Value) (unit : string) : result (Series Value) :=
  rbind (timedelta_unit unit) (λ ns,
    match arg with
    | IntSeries a => Ok (TimedeltaSeries (map (λ h, h * ns) a))
    | _ => Raise (TypeError "to_timedelta: only an integer column is modelled")
    end).

(** [k] draws in a row, threading the generator. *)
Fixpoint draws (k : nat) (g : RngState) : list Value * RngState :=
  match k with
  | O => ([], g)
  | S k' => let (v, g1) := draw g in
            let (vs, g2) := draws k' g1 in
            (v :: vs, g2)
  end.

(** [np.random.standard_normal(size)] *)
Definition standard_normal (size : Z) : M RngState (list Value) :=
  λ g, if size <? 0 then Raise (ValueError "negative dimensions are not allowed")
       else Ok (draws (Z.to_nat size) g).

(** [pd.to_datetime('2024-01-26')]: midnight of 26 January 2024. *)
Definition nowcast : Timestamp := timestamp_of_date 2024 1 26.

(** The local variable [horizons] of [make_df]. *)
Definition horizons (temp_scale : string) : list Z :=
  if String.eqb temp_scale "d" then arange (-27) 8 else arange (-4) 2.

(** The argument of [from_records]: [list(product(...))]. *)
Definition records (temp_scale : string) (n_samples : Z) : list Record6 :=
  product6 [nowcast]
           (horizons temp_scale)
           (astype_str (arange 0 50))
           (astype_str (arange 0 30))
           ["sample"]
           (arange 0 n_samples).

Definition make_df (temp_scale : string) (n_samples : Z) : M RngState (DataFrame Value) :=
  (df <- lift (from_records (records temp_scale n_samples)
                 ["nowcast_date"; "horizon"; "location"; "lineage";
                  "output_type"; "output_type_id"]) ;;
   nowcast_date <- lift (getitem df "nowcast_date") ;;
   horizon <- lift (getitem df "horizon") ;;
   delta <- lift (to_timedelta horizon temp_scale) ;;
   target_date <- lift (series_add nowcast_date delta) ;;
   df <- lift (setitem df "target_date" target_date) ;;
   value <- standard_normal (shape df).1 ;;
   df <- lift (setitem df "value" (FloatSeries value)) ;;
   ret df)%py.

(** *** The driver: the module-level statements

    The interpreter state the script acts on: the global random
    generator, the files written so far and the standard output. *)
Record World : Type := mkWorld {
  rng : RngState;
  files : gmap string (DataFrame Value);
  stdout : list string
}.

(** A computation on the generator alone, run inside the interpreter. *)
Definition with_rng {A} (m : M RngState A) : M World A :=
  λ w, match m (rng w) with
       | Ok (a, g) => Ok (a, mkWorld g (files w) (stdout w))
       | Raise e => Raise e
       end.

(** [df.to_parquet(path)]: the file at [path] now holds the frame,
    whatever it held before.  The write itself is taken to succeed. *)
Definition to_parquet (df : DataFrame Value) (path : string) : M World unit :=
  λ w, Ok (tt, mkWorld (rng w) (<[path := df]> (files w)) (stdout w)).

(** An expression statement, such as [df1.shape] on a line of its own:
    the value is computed; an interactive session then shows its [repr]
    on the standard output, a script drops it. *)
Definition expr_stmt (mode : Mode) (value : Z * Z) : M World unit :=
  λ w, match mode with
       | Script => Ok (tt, w)
       | Interactive =>
           Ok (tt, mkWorld (rng w) (files w) (stdout w ++ [repr_shape value])%list)
       end.

(** The module-level statements, lines 31 to 45. *)
Definition run (mode : Mode) : M World unit :=
  (df1 <- with_rng (make_df "d" 100) ;;
   to_parquet df1 "parquet-file-sizes/example1.parquet" ;;
   expr_stmt mode (shape df1) ;;
   df2 <- with_rng (make_df "d" 500) ;;
   to_parquet df2 "parquet-file-sizes/example2.parquet" ;;
   expr_stmt mode (shape df2) ;;
   df3 <- with_rng (make_df "w" 100) ;;
   to_parquet df3 "parquet-file-sizes/example3.parquet" ;;
   expr_stmt mode (shape df3) ;;
   df4 <- with_rng (make_df "w" 500) ;;
   to_parquet df4 "parquet-file-sizes/example4.parquet" ;;
   expr_stmt mode (shape df4))%py.

(** The file run as the program it is. *)
Definition driver : M World unit := run Script.

(** *** The frame in closed form

    What [make_df] builds from its records once the unit is worth [ns]
    nanoseconds and the sampler has returned [vals]. *)
Definition frame (recs : list Record6) (ns : Z) (vals : list Value) : DataFrame Value :=
  mkDataFrame (len recs)
    [ ("nowcast_date", DatetimeSeries (map r_nowcast_date recs));
      ("horizon", IntSeries (map r_horizon recs));
      ("location", StrSeries (map r_location recs));
      ("lineage", StrSeries (map r_lineage recs));
      ("output_type", StrSeries (map r_output_type recs));
      ("output_type_id", IntSeries (map r_output_type_id recs));
      ("target_date", DatetimeSeries (map (λ r, r_nowcast_date r + r_horizon r * ns) recs));
      ("value", FloatSeries vals) ].
End Generator.

(** ** Concrete facilities *)

(** [s.lower()] on the ASCII letters; no other character lowers to a
    letter that occurs in a unit name. *)
Definition lower_ascii (c : ascii) : ascii :=
  let n := N_of_ascii c in
  if (65 <=? n)%N && (n <=? 90)%N then ascii_of_N (n + 32) else c.

Fixpoint lower (s : string) : string :=
  match s with
  | EmptyString => EmptyString
  | String c rest => String (lower_ascii c) (lower rest)
  end.

(** The unit names of pandas 2 ([timedelta_abbrevs]), looked up in lower
    case, with the nanoseconds in one unit. *)
Definition timedelta_abbrevs : list (list string * Z) :=
  [ (["w"], 7 * ns_per_day);
    (["d"; "days"; "day"], ns_per_day);
    (["hours"; "hour"; "hr"; "h"], 3600 * 1000000000);
    (["m"; "minute"; "min"; "minutes"; "t"], 60 * 1000000000);
    (["s"; "seconds"; "sec"; "second"], 1000000000);
    (["ms"; "milliseconds"; "millisecond"; "milli"; "millis"; "l"], 1000000);
    (["us"; "microseconds"; "microsecond"; "µs"; "micro"; "micros"; "u"], 1000);
    (["ns"; "nanoseconds"; "nano"; "nanos"; "nanosecond"; "n"], 1) ].

Fixpoint abbrev_lookup (name : string) (table : list (list string * Z)) : option Z :=
  match table with
  | [] => None
  | (names, ns) :: rest =>
      if existsb (String.eqb name) names then Some ns else abbrev_lookup name rest
  end.

(** The unit resolution of [pd.to_timedelta] in pandas 2: months and years
    are refused as ambiguous, any name outside the table as invalid. *)
Definition pandas_unit (unit : string) : result Z :=
  if String.eqb unit "M" || String.eqb (lower unit) "y"
  then Raise (ValueError "Units 'M', 'Y', and 'y' are no longer supported, as they do not represent unambiguous timedelta values durations.")
  else match abbrev_lookup (lower unit) timedelta_abbrevs with
       | Some ns => Ok ns
       | None => Raise (ValueError ("invalid unit abbreviation: " ++ unit))
       end.

(** A linear congruential generator in place of the sampler, where a
    concrete one is needed: the state is the last 64-bit output. *)
Definition lcg_draw (g : Z) : Z * Z :=
  let g' := (6364136223846793005 * g + 1442695040888963407) mod 2 ^ 64 in
  (g', g').

(** The interpreter as the script finds it: a seeded generator, no file
    written, nothing printed. *)
Definition fresh_world : @World Z Z := mkWorld 0 ∅ [].

(** ** Readings of a frame for the further properties *)

(** The four cells of row [i] that tell the rows of one frame apart. *)
Definition row_key {Value} (df : DataFrame Value) (i : nat)
    : option (Cell Value) * option (Cell Value) * option (Cell Value) * option (Cell Value) :=
  (cell_at df i "horizon", cell_at df i "location", cell_at df i "lineage",
   cell_at df i "output_type_id").

(** The day of the week a timestamp falls on, 0 for Sunday to 6 for
    Saturday; 1970-01-01 was a Thursday. *)
Definition weekday (t : Timestamp) : Z := (t / ns_per_day + 4) mod 7.

(** * Properties *)

(** ** Lists: lengths, positions and counts in a product *)

Section ListFacts.
Context {A B : Type}.
Implicit Types (xs : list A) (ys : list B).

Lemma len_nil : len (@nil A) = 0.
Proof. reflexivity. Qed.

Lemma len_app xs xs' : len (xs ++ xs') = len xs + len xs'.
Proof. unfold len. rewrite length_app. lia. Qed.

Lemma len_map (f : A → B) xs : len (map f xs) = len xs.
Proof. unfold len. by rewrite length_map. Qed.

Lemma len_nonneg xs : 0 ≤ len xs.
Proof. unfold len. lia. Qed.

Lemma len_list_prod xs ys : len (list_prod xs ys) = len xs * len ys.
Proof. unfold len. rewrite length_prod. lia. Qed.

(** Position [i1 * |ys| + i2] of a product holds the pair of position
    [i1] of the first pool and position [i2] of the second. *)
Lemma lookup_list_prod xs ys i1 i2 x y :
  xs !! i1 = Some x → ys !! i2 = Some y →
  list_prod xs ys !! (i1 * length ys + i2)%nat = Some (x, y).
Proof.
  revert i1. induction xs as [|x0 xs IH]; intros i1 Hx Hy; [done|].
  simpl. destruct i1 as [|i1]; simpl in *.
  - simplify_eq. rewrite lookup_app_l.
    + by rewrite list_lookup_fmap, Hy.
    + rewrite length_map. by eapply lookup_lt_Some.
  - rewrite lookup_app_r; rewrite length_map; [|lia].
    replace (length ys + i1 * length ys + i2 - length ys)%nat
      with (i1 * length ys + i2)%nat by lia.
    by apply IH.
Qed.

Lemma elem_of_prod xs ys x y : (x, y) ∈ list_prod xs ys ↔ x ∈ xs ∧ y ∈ ys.
Proof. rewrite !list_elem_of_In. apply in_prod_iff. Qed.

Lemma count_nil (p : A → bool) : count p [] = 0.
Proof. reflexivity. Qed.

Lemma count_cons (p : A → bool) x xs :
  count p (x :: xs) = (if p x then 1 else 0) + count p xs.
Proof. unfold count, len. simpl. destruct (p x); simpl; lia. Qed.

Lemma count_app (p : A → bool) xs xs' : count p (xs ++ xs') = count p xs + count p xs'.
Proof. unfold count. by rewrite List.filter_app, len_app. Qed.

Lemma count_nonneg (p : A → bool) xs : 0 ≤ count p xs.
Proof. apply len_nonneg. Qed.

Lemma len_cons x xs : len (x :: xs) = 1 + len xs.
Proof. unfold len. simpl. lia. Qed.
End ListFacts.

Section CountProduct.
Context {A B C : Type}.
Implicit Types (xs : list A) (ys : list B) (p : C → bool).

Lemma count_map_const p (c : C) ys :
  count p (map (λ _ : B, c) ys) = if p c then len ys else 0.
Proof.
  induction ys as [|y ys IH]; simpl.
  - by destruct (p c).
  - rewrite count_cons, IH, len_cons. by destruct (p c).
Qed.

(** A column read off the first component is the column of the first
    pool with every entry repeated once per element of the second. *)
Lemma count_map_fst p (f : A → C) xs ys :
  count p (map (λ r : A * B, f r.1) (list_prod xs ys)) = count p (map f xs) * len ys.
Proof.
  induction xs as [|x xs IH]; simpl; [done|].
  rewrite map_app, count_app, IH, map_map, count_cons. simpl.
  rewrite count_map_const. destruct (p (f x)); ring.
Qed.

(** A column read off the second component is the column of the second
    pool, once per element of the first. *)
Lemma count_map_snd p (f : B → C) xs ys :
  count p (map (λ r : A * B, f r.2) (list_prod xs ys)) = len xs * count p (map f ys).
Proof.
  induction xs as [|x xs IH]; simpl; [done|].
  rewrite map_app, count_app, IH, map_map, len_cons. simpl.
  change (map (λ y : B, f y) ys) with (map f ys). ring.
Qed.

Lemma count_via_fst p (g : A * B → C) (f : A → C) xs ys :
  (∀ r, g r = f r.1) →
  count p (map g (list_prod xs ys)) = count p (map f xs) * len ys.
Proof. intros H. rewrite (map_ext _ _ H). apply count_map_fst. Qed.

Lemma count_via_snd p (g : A * B → C) (f : B → C) xs ys :
  (∀ r, g r = f r.2) →
  count p (map g (list_prod xs ys)) = len xs * count p (map f ys).
Proof. intros H. rewrite (map_ext _ _ H). apply count_map_snd. Qed.
End CountProduct.

Lemma len_arange a b : len (arange a b) = Z.max 0 (b - a).
Proof. unfold len, arange. rewrite length_seqZ. lia. Qed.

Lemma lookup_arange a b (i : Z) :
  0 ≤ i < b - a → arange a b !! Z.to_nat i = Some (a + i).
Proof.
  intros H. unfold arange. rewrite lookup_seqZ_lt by lia. f_equal. lia.
Qed.

Lemma elem_of_arange a b k : k ∈ arange a b ↔ a ≤ k < b.
Proof. unfold arange. rewrite elem_of_seqZ. lia. Qed.

Lemma zip_with_add_map {A} (f g : A → Z) (l : list A) :
  zip_with Z.add (map f l) (map g l) = map (λ x, f x + g x) l.
Proof. induction l as [|x l IH]; simpl; [done|]. by rewrite IH. Qed.

(** ** The generator in closed form *)

Section GeneratorFacts.
Context {Value RngState : Type}.
Variable timedelta_unit : string → result Z.
Variable draw : RngState → Value * RngState.

#[local] Abbreviation mk_df := (make_df timedelta_unit draw).
#[local] Abbreviation sample := (draws draw).

Lemma length_draws k g : length (sample k g).1 = k.
Proof.
  revert g. induction k as [|k IH]; intros g; simpl; [done|].
  destruct (draw g) as [v g1]. specialize (IH g1).
  destruct (sample k g1) as [vs g2]. simpl in *. by rewrite IH.
Qed.

(** [make_df] raises what the unit resolution raises and nothing else;
    otherwise it returns the closed-form frame over its records, with
    one draw per record. *)
Lemma make_df_eq temp_scale n_samples g :
  mk_df temp_scale n_samples g =
  match timedelta_unit temp_scale with
  | Raise e => Raise e
  | Ok ns =>
      let recs := records temp_scale n_samples in
      Ok (frame recs ns (sample (length recs) g).1, (sample (length recs) g).2)
  end.
Proof.
  unfold make_df. generalize (records temp_scale n_samples) as recs.
  intros recs. unfold bind, lift. simpl.
  unfold to_timedelta, rbind. destruct (timedelta_unit temp_scale) as [ns|e]; [|done].
  simpl. unfold setitem. simpl.
  rewrite map_map, zip_with_add_map, len_map, Z.eqb_refl.
  simpl. unfold standard_normal.
  destruct (Z.ltb_spec (len recs) 0) as [Hneg|_];
    [pose proof (len_nonneg recs); lia|].
  replace (Z.to_nat (len recs)) with (length recs) by (unfold len; lia).
  pose proof (length_draws (length recs) g) as Hlen.
  destruct (sample (length recs) g) as [vals g']. simpl in *.
  unfold len at 1. rewrite Hlen. fold (len recs). rewrite Z.eqb_refl.
  reflexivity.
Qed.
End GeneratorFacts.

(** ** The records: how many, which ones, in which order *)

Lemma horizons_d : horizons "d" = arange (-27) 8.
Proof. reflexivity. Qed.

Lemma horizons_not_d temp_scale : temp_scale ≠ "d" → horizons temp_scale = arange (-4) 2.
Proof. intros H. unfold horizons. by apply String.eqb_neq in H as ->. Qed.

Lemma horizons_cases temp_scale :
  (temp_scale = "d" ∧ horizons temp_scale = arange (-27) 8) ∨
  (temp_scale ≠ "d" ∧ horizons temp_scale = arange (-4) 2).
Proof.
  destruct (String.eqb_spec temp_scale "d") as [->|Hne].
  - left. split; [done|apply horizons_d].
  - right. split; [done|by apply horizons_not_d].
Qed.

Lemma len_pool_50 : len (astype_str (arange 0 50)) = 50.
Proof. unfold astype_str. by rewrite len_map, len_arange. Qed.

Lemma len_pool_30 : len (astype_str (arange 0 30)) = 30.
Proof. unfold astype_str. by rewrite len_map, len_arange. Qed.

Lemma len_records temp_scale n_samples :
  len (records temp_scale n_samples)
  = len (horizons temp_scale) * 50 * 30 * Z.max 0 n_samples.
Proof.
  unfold records, product6. rewrite !len_list_prod, len_pool_50, len_pool_30.
  rewrite len_arange. change (len [nowcast]) with 1. change (len ["sample"]) with 1.
  rewrite Z.sub_0_r. ring.
Qed.

Lemma elem_of_records temp_scale n_samples (r : Record6) :
  r ∈ records temp_scale n_samples ↔
    r_nowcast_date r = nowcast ∧
    r_horizon r ∈ horizons temp_scale ∧
    r_location r ∈ astype_str (arange 0 50) ∧
    r_lineage r ∈ astype_str (arange 0 30) ∧
    r_output_type r = "sample" ∧
    0 ≤ r_output_type_id r < n_samples.
Proof.
  destruct r as [[[[[t h] loc] lin] ot] k]. unfold records, product6.
  rewrite !elem_of_prod, !list_elem_of_singleton, elem_of_arange.
  unfold r_nowcast_date, r_horizon, r_location, r_lineage, r_output_type,
    r_output_type_id. simpl. tauto.
Qed.

(** The record at position [((a * 50 + b) * 30 + c) * n_samples + d]: the
    horizon at position [a] of its range, location [b], lineage [c],
    sample [d]. *)
Lemma lookup_records temp_scale n_samples (a b c d : Z) h :
  horizons temp_scale !! Z.to_nat a = Some h →
  0 ≤ a → 0 ≤ b < 50 → 0 ≤ c < 30 → 0 ≤ d < n_samples →
  records temp_scale n_samples !! Z.to_nat (((a * 50 + b) * 30 + c) * n_samples + d)
  = Some (nowcast, h, str b, str c, "sample", d).
Proof.
  intros Hh Ha Hb Hc Hd. unfold records, product6.
  assert (Hloc : astype_str (arange 0 50) !! Z.to_nat b = Some (str b)).
  { unfold astype_str. rewrite list_lookup_fmap, lookup_arange by lia. done. }
  assert (Hlin : astype_str (arange 0 30) !! Z.to_nat c = Some (str c)).
  { unfold astype_str. rewrite list_lookup_fmap, lookup_arange by lia. done. }
  assert (Hid : arange 0 n_samples !! Z.to_nat d = Some d).
  { rewrite lookup_arange by lia. done. }
  assert (L50 : length (astype_str (arange 0 50)) = 50%nat).
  { pose proof len_pool_50. unfold len in *. lia. }
  assert (L30 : length (astype_str (arange 0 30)) = 30%nat).
  { pose proof len_pool_30. unfold len in *. lia. }
  assert (Ln : length (arange 0 n_samples) = Z.to_nat n_samples).
  { pose proof (len_arange 0 n_samples). unfold len in *. lia. }
  pose proof (lookup_list_prod [nowcast] (horizons temp_scale) 0 (Z.to_nat a)
                nowcast h eq_refl Hh) as H1.
  pose proof (lookup_list_prod _ _ _ _ _ _ H1 Hloc) as H2.
  pose proof (lookup_list_prod _ _ _ _ _ _ H2 Hlin) as H3.
  pose proof (lookup_list_prod _ ["sample"] _ 0 _ "sample" H3 eq_refl) as H4.
  pose proof (lookup_list_prod _ _ _ _ _ _ H4 Hid) as H5.
  rewrite <- H5. f_equal. rewrite L50, L30, Ln. simpl length. nia.
Qed.

(** The same by row number: the digits of [i] in the mixed radix
    (horizons, 50, 30, n_samples). *)
Lemma records_at_index temp_scale n_samples h0 H (i : Z) :
  horizons temp_scale = arange h0 (h0 + H) →
  0 < n_samples → 0 ≤ i < H * 50 * 30 * n_samples →
  records temp_scale n_samples !! Z.to_nat i
  = Some (nowcast, h0 + i / (50 * 30 * n_samples),
          str (i / (30 * n_samples) mod 50), str (i / n_samples mod 30),
          "sample", i mod n_samples).
Proof.
  intros HH HN Hi.
  pose proof (Z.div_mod i n_samples ltac:(lia)) as E1.
  pose proof (Z.mod_pos_bound i n_samples HN) as B1.
  set (d := i mod n_samples) in *. set (q1 := i / n_samples) in *.
  pose proof (Z.div_mod q1 30 ltac:(lia)) as E2.
  pose proof (Z.mod_pos_bound q1 30 ltac:(lia)) as B2.
  set (c := q1 mod 30) in *.
  assert (Hq2 : i / (30 * n_samples) = q1 / 30).
  { unfold q1. rewrite Z.div_div by lia. f_equal. lia. }
  rewrite Hq2. set (q2 := q1 / 30) in *.
  pose proof (Z.div_mod q2 50 ltac:(lia)) as E3.
  pose proof (Z.mod_pos_bound q2 50 ltac:(lia)) as B3.
  set (b := q2 mod 50) in *.
  assert (Ha : i / (50 * 30 * n_samples) = q2 / 50).
  { unfold q2, q1. rewrite !Z.div_div by lia. f_equal. lia. }
  rewrite Ha. set (a := q2 / 50) in *.
  assert (0 ≤ q1) by (apply Z.div_pos; lia).
  assert (0 ≤ q2) by (apply Z.div_pos; lia).
  assert (0 ≤ a) by (apply Z.div_pos; lia).
  assert (a < H) by nia.
  replace i with (((a * 50 + b) * 30 + c) * n_samples + d) at 1 by lia.
  apply lookup_records; try lia.
  rewrite HH. rewrite lookup_arange by lia. done.
Qed.

(** How often a value occurs in a column of the records. *)

Lemma count_location (p : string → bool) temp_scale n_samples :
  count p (map r_location (records temp_scale n_samples))
  = len (horizons temp_scale) * count p (astype_str (arange 0 50)) * 30 * Z.max 0 n_samples.
Proof.
  unfold records, product6.
  rewrite (count_via_fst p _ (λ r, r.1.1.2)) by done.
  rewrite (count_via_fst p _ (λ r, r.1.2)) by done.
  rewrite (count_via_fst p _ (λ r, r.2)) by done.
  rewrite (count_via_snd p _ (λ x, x)) by done.
  rewrite map_id, !len_list_prod, len_pool_30, len_arange.
  change (len [nowcast]) with 1. change (len ["sample"]) with 1.
  rewrite Z.sub_0_r. ring.
Qed.

Lemma count_lineage (p : string → bool) temp_scale n_samples :
  count p (map r_lineage (records temp_scale n_samples))
  = len (horizons temp_scale) * 50 * count p (astype_str (arange 0 30)) * Z.max 0 n_samples.
Proof.
  unfold records, product6.
  rewrite (count_via_fst p _ (λ r, r.1.2)) by done.
  rewrite (count_via_fst p _ (λ r, r.2)) by done.
  rewrite (count_via_snd p _ (λ x, x)) by done.
  rewrite map_id, !len_list_prod, len_pool_50, len_arange.
  change (len [nowcast]) with 1. change (len ["sample"]) with 1.
  rewrite Z.sub_0_r. ring.
Qed.

Lemma count_output_type_id (p : Z → bool) temp_scale n_samples :
  count p (map r_output_type_id (records temp_scale n_samples))
  = len (horizons temp_scale) * 50 * 30 * count p (arange 0 n_samples).
Proof.
  unfold records, product6.
  rewrite (count_via_snd p _ (λ x, x)) by done.
  rewrite map_id, !len_list_prod, len_pool_50, len_pool_30.
  change (len [nowcast]) with 1. change (len ["sample"]) with 1. ring.
Qed.

Lemma count_none {A} (p : A → bool) (l : list A) :
  (∀ x, x ∈ l → p x = false) → count p l = 0.
Proof.
  induction l as [|x l IH]; intros H; [done|].
  rewrite count_cons, (H x) by left. rewrite IH; [done|].
  intros y Hy. apply H. by right.
Qed.

(** Every integer of a range occurs in it once. *)
Lemma count_arange v a b : a ≤ v < b → count (Z.eqb v) (arange a b) = 1.
Proof.
  intros H. unfold arange.
  replace (b - a) with ((v - a) + (1 + (b - (v + 1)))) by lia.
  rewrite seqZ_app by lia. rewrite (seqZ_app _ 1) by lia.
  rewrite !count_app. replace (a + (v - a)) with v by lia.
  rewrite (seqZ_cons v 1), (seqZ_nil _ (Z.pred 1)) by lia.
  rewrite count_cons, Z.eqb_refl, count_nil.
  rewrite !count_none; [lia| |].
  - intros x Hx. apply elem_of_seqZ in Hx. apply Z.eqb_neq. lia.
  - intros x Hx. apply elem_of_seqZ in Hx. apply Z.eqb_neq. lia.
Qed.

Lemma pool_50_strings : astype_str (arange 0 50) = strings_0_49.
Proof. reflexivity. Qed.

Lemma pool_30_strings : astype_str (arange 0 30) = strings_0_29.
Proof. reflexivity. Qed.

Lemma list_prod_nil_r {A B} (xs : list A) : list_prod xs (@nil B) = [].
Proof. induction xs; simpl; auto. Qed.

(** No record without a sample. *)
Lemma records_nonpositive temp_scale n_samples :
  n_samples ≤ 0 → records temp_scale n_samples = [].
Proof.
  intros H. unfold records, product6, arange.
  rewrite (seqZ_nil 0 (n_samples - 0)) by lia. apply list_prod_nil_r.
Qed.

Lemma horizons_nonempty temp_scale : ∃ h, h ∈ horizons temp_scale.
Proof.
  destruct (horizons_cases temp_scale) as [[_ ->]|[_ ->]].
  - exists (-27). apply elem_of_arange. lia.
  - exists (-4). apply elem_of_arange. lia.
Qed.

(** The decimal strings of a short range are pairwise different: each
    occurs once among them. *)
Lemma count_strings_0_49 v :
  v ∈ strings_0_49 → count (String.eqb v) strings_0_49 = 1.
Proof.
  intros H.
  assert (Hall : forallb (λ v, count (String.eqb v) strings_0_49 =? 1) strings_0_49 = true)
    by (vm_compute; reflexivity).
  rewrite forallb_forall in Hall. by apply Z.eqb_eq, Hall, list_elem_of_In.
Qed.

Lemma count_strings_0_29 v :
  v ∈ strings_0_29 → count (String.eqb v) strings_0_29 = 1.
Proof.
  intros H.
  assert (Hall : forallb (λ v, count (String.eqb v) strings_0_29 =? 1) strings_0_29 = true)
    by (vm_compute; reflexivity).
  rewrite forallb_forall in Hall. by apply Z.eqb_eq, Hall, list_elem_of_In.
Qed.

(** ** Cells of the closed-form frame *)

Section FrameFacts.
Context {Value : Type}.
Implicit Types (recs : list Record6) (vals : list Value).

Lemma shape_frame recs ns vals : shape (frame recs ns vals) = (len recs, 8).
Proof. reflexivity. Qed.

Lemma index_frame recs ns vals : index (frame recs ns vals) = len recs.
Proof. reflexivity. Qed.

Lemma column_names_frame recs ns vals :
  column_names (frame recs ns vals)
  = ["nowcast_date"; "horizon"; "location"; "lineage"; "output_type";
     "output_type_id"; "target_date"; "value"].
Proof. reflexivity. Qed.

Lemma cell_nowcast_date recs ns vals i :
  cell_at (frame recs ns vals) i "nowcast_date" = (λ r, CTime (r_nowcast_date r)) <$> recs !! i.
Proof. unfold cell_at, frame. cbn. rewrite list_lookup_fmap. by destruct (recs !! i). Qed.

Lemma cell_horizon recs ns vals i :
  cell_at (frame recs ns vals) i "horizon" = (λ r, CInt (r_horizon r)) <$> recs !! i.
Proof. unfold cell_at, frame. cbn. rewrite list_lookup_fmap. by destruct (recs !! i). Qed.

Lemma cell_location recs ns vals i :
  cell_at (frame recs ns vals) i "location" = (λ r, CStr (r_location r)) <$> recs !! i.
Proof. unfold cell_at, frame. cbn. rewrite list_lookup_fmap. by destruct (recs !! i). Qed.

Lemma cell_lineage recs ns vals i :
  cell_at (frame recs ns vals) i "lineage" = (λ r, CStr (r_lineage r)) <$> recs !! i.
Proof. unfold cell_at, frame. cbn. rewrite list_lookup_fmap. by destruct (recs !! i). Qed.

Lemma cell_output_type recs ns vals i :
  cell_at (frame recs ns vals) i "output_type" = (λ r, CStr (r_output_type r)) <$> recs !! i.
Proof. unfold cell_at, frame. cbn. rewrite list_lookup_fmap. by destruct (recs !! i). Qed.

Lemma cell_output_type_id recs ns vals i :
  cell_at (frame recs ns vals) i "output_type_id"
  = (λ r, CInt (r_output_type_id r)) <$> recs !! i.
Proof. unfold cell_at, frame. cbn. rewrite list_lookup_fmap. by destruct (recs !! i). Qed.

Lemma cell_target_date recs ns vals i :
  cell_at (frame recs ns vals) i "target_date"
  = (λ r, CTime (r_nowcast_date r + r_horizon r * ns)) <$> recs !! i.
Proof. unfold cell_at, frame. cbn. rewrite list_lookup_fmap. by destruct (recs !! i). Qed.

Lemma cell_value recs ns vals i :
  cell_at (frame recs ns vals) i "value" = CFloat <$> vals !! i.
Proof. reflexivity. Qed.

Lemma getitem_frame_location recs ns vals :
  getitem (frame recs ns vals) "location" = Ok (StrSeries (map r_location recs)).
Proof. reflexivity. Qed.

Lemma getitem_frame_lineage recs ns vals :
  getitem (frame recs ns vals) "lineage" = Ok (StrSeries (map r_lineage recs)).
Proof. reflexivity. Qed.

Lemma getitem_frame_output_type recs ns vals :
  getitem (frame recs ns vals) "output_type" = Ok (StrSeries (map r_output_type recs)).
Proof. reflexivity. Qed.

Lemma getitem_frame_output_type_id recs ns vals :
  getitem (frame recs ns vals) "output_type_id" = Ok (IntSeries (map r_output_type_id recs)).
Proof. reflexivity. Qed.

Lemma drop_value_frame recs ns vals vals' :
  drop (frame recs ns vals) "value" = drop (frame recs ns vals') "value".
Proof. reflexivity. Qed.

(** With as many values as records, every column of the frame is as long
    as the index. *)
Lemma frame_columns_full recs ns vals :
  len vals = len recs →
  Forall (λ c, series_len c.2 = len recs) (columns (frame recs ns vals)).
Proof.
  intros Hvals. unfold frame. cbn [columns].
  repeat (apply Forall_cons; split; [cbn; by rewrite ?len_map|]).
  constructor.
Qed.
End FrameFacts.

Lemma len_draws {Value RngState} (draw : RngState → Value * RngState) {A}
    (l : list A) g :
  len (draws draw (length l) g).1 = len l.
Proof. unfold len. by rewrite length_draws. Qed.

Lemma len_horizons temp_scale :
  len (horizons temp_scale) = if String.eqb temp_scale "d" then 35 else 6.
Proof. unfold horizons. destruct (String.eqb _ _); by rewrite len_arange. Qed.

Lemma lookup_lt_len {A} (l : list A) (i : nat) : Z.of_nat i < len l → is_Some (l !! i).
Proof. intros H. apply lookup_lt_is_Some. unfold len in H. lia. Qed.

(** ** Calendar arithmetic on timestamps *)

Lemma add_weeks_days t k : add_weeks t k = add_days t (7 * k).
Proof. unfold add_weeks, add_days. ring. Qed.

(** Moving midnight of a date by [k] days gives midnight of the date [k]
    days later. *)
Lemma add_days_midnight y m d k :
  add_days (timestamp_of_date y m d) k = (days_from_civil y m d + k) * ns_per_day ∧
  date_of_timestamp (add_days (timestamp_of_date y m d) k)
  = civil_from_days (days_from_civil y m d + k).
Proof.
  unfold add_days, timestamp_of_date, date_of_timestamp. split; [ring|].
  f_equal. rewrite <- Z.mul_add_distr_r. by apply Z.div_mul.
Qed.

Lemma timestamps_in_range h :
  -27 ≤ h ≤ 7 →
  - 2 ^ 63 < add_days nowcast h < 2 ^ 63 ∧ - 2 ^ 63 < add_weeks nowcast h < 2 ^ 63.
Proof.
  intros H. unfold add_days, add_weeks.
  change nowcast with 1706227200000000000. change ns_per_day with 86400000000000.
  lia.
Qed.

Example nowcast_is_2024_01_26 :
  nowcast = 1706227200000000000 ∧ date_of_timestamp nowcast = (2024, 1, 26).
Proof. split; reflexivity. Qed.

Example target_dates_at_the_ends :
  date_of_timestamp (add_days nowcast (-27)) = (2023, 12, 30) ∧
  date_of_timestamp (add_days nowcast 7) = (2024, 2, 2) ∧
  date_of_timestamp (add_weeks nowcast (-4)) = (2023, 12, 29) ∧
  date_of_timestamp (add_weeks nowcast 1) = (2024, 2, 2).
Proof. repeat split; reflexivity. Qed.

(** ** The generator on the two scales of the script

    From here on the unit resolution is any one that reads ["d"] as one
    day and ["w"] as seven days, as [pandas_unit] does. *)

Lemma pandas_unit_d : pandas_unit "d" = Ok ns_per_day.
Proof. reflexivity. Qed.

Lemma pandas_unit_w : pandas_unit "w" = Ok (7 * ns_per_day).
Proof. reflexivity. Qed.

Section Scales.
Context {Value RngState : Type}.
Variable timedelta_unit : string → result Z.
Variable draw : RngState → Value * RngState.
Hypothesis unit_d : timedelta_unit "d" = Ok ns_per_day.
Hypothesis unit_w : timedelta_unit "w" = Ok (7 * ns_per_day).

#[local] Abbreviation mk_df := (make_df timedelta_unit draw).

Lemma make_df_d n_samples g :
  mk_df "d" n_samples g
  = Ok (frame (records "d" n_samples) ns_per_day
          (draws draw (length (records "d" n_samples)) g).1,
        (draws draw (length (records "d" n_samples)) g).2).
Proof. by rewrite make_df_eq, unit_d. Qed.

Lemma make_df_w n_samples g :
  mk_df "w" n_samples g
  = Ok (frame (records "w" n_samples) (7 * ns_per_day)
          (draws draw (length (records "w" n_samples)) g).1,
        (draws draw (length (records "w" n_samples)) g).2).
Proof. by rewrite make_df_eq, unit_w. Qed.

(** C1. For every positive sample count [N], [make_df] on the day scale
    returns a frame of exactly 35 * 50 * 30 * N rows and 8 columns, and
    on the week scale one of exactly 6 * 50 * 30 * N rows and 8 columns:
    the shape says so, the columns are the eight named ones, and each of
    them holds that many entries.  The horizons are -27..7 and -4..1, 35
    and 6 of them, and the row count is the product of the sizes of the
    six pools. *)
Theorem C1_shape (N : Z) (g : RngState) :
  0 < N →
  (∃ df g', mk_df "d" N g = Ok (df, g') ∧
            shape df = (35 * 50 * 30 * N, 8) ∧
            index df = 1 * len (horizons "d") * 50 * 30 * 1 * N ∧
            column_names df
            = ["nowcast_date"; "horizon"; "location"; "lineage"; "output_type";
               "output_type_id"; "target_date"; "value"] ∧
            Forall (λ c, series_len c.2 = 35 * 50 * 30 * N) (columns df)) ∧
  (∃ df g', mk_df "w" N g = Ok (df, g') ∧
            shape df = (6 * 50 * 30 * N, 8) ∧
            index df = 1 * len (horizons "w") * 50 * 30 * 1 * N ∧
            column_names df
            = ["nowcast_date"; "horizon"; "location"; "lineage"; "output_type";
               "output_type_id"; "target_date"; "value"] ∧
            Forall (λ c, series_len c.2 = 6 * 50 * 30 * N) (columns df)) ∧
  horizons "d" = [-27; -26; -25; -24; -23; -22; -21; -20; -19; -18; -17; -16;
                  -15; -14; -13; -12; -11; -10; -9; -8; -7; -6; -5; -4; -3;
                  -2; -1; 0; 1; 2; 3; 4; 5; 6; 7] ∧
  horizons "w" = [-4; -3; -2; -1; 0; 1].
Proof.
  intros HN. split; [|split; [|split; reflexivity]].
  - eexists _, _. split; [apply make_df_d|].
    assert (E : len (records "d" N) = 35 * 50 * 30 * N)
      by (rewrite len_records, horizons_d, len_arange; lia).
    rewrite shape_frame, index_frame, column_names_frame, E, horizons_d, len_arange.
    split; [done|]. split; [lia|]. split; [done|].
    rewrite <- E. apply frame_columns_full, len_draws.
  - eexists _, _. split; [apply make_df_w|].
    assert (E : len (records "w" N) = 6 * 50 * 30 * N)
      by (rewrite len_records, (horizons_not_d "w"), len_arange by done; lia).
    rewrite shape_frame, index_frame, column_names_frame, E,
      (horizons_not_d "w"), len_arange by done.
    split; [done|]. split; [lia|]. split; [done|].
    rewrite <- E. apply frame_columns_full, len_draws.
Qed.

Lemma frame_row (temp_scale : string) (N ns : Z) (vals : list Value) (i : nat) :
  Z.of_nat i < index (frame (records temp_scale N) ns vals) →
  ∃ r, records temp_scale N !! i = Some r ∧ r ∈ records temp_scale N.
Proof.
  unfold frame. cbn [index]. intros Hi.
  destruct (lookup_lt_len _ _ Hi) as [r Hr].
  exists r. split; [done|]. by eapply list_elem_of_lookup_2.
Qed.

(** C2. [make_df] returns a frame of 35 * 50 * 30 * N rows on the day
    scale and of 6 * 50 * 30 * N rows on the week scale (none for an [N]
    below one), and in every one of these rows [target_date] is
    [nowcast_date], the fixed date 2024-01-26, plus [horizon] days on the
    day scale and plus [horizon] weeks on the week scale. *)
Theorem C2_target_date (N : Z) (g : RngState) :
  (∃ df g', mk_df "d" N g = Ok (df, g') ∧
     index df = 35 * 50 * 30 * Z.max 0 N ∧
     ∀ i : nat, Z.of_nat i < index df →
       ∃ h, cell_at df i "horizon" = Some (CInt h) ∧
            cell_at df i "nowcast_date" = Some (CTime (timestamp_of_date 2024 1 26)) ∧
            cell_at df i "target_date"
            = Some (CTime (add_days (timestamp_of_date 2024 1 26) h))) ∧
  (∃ df g', mk_df "w" N g = Ok (df, g') ∧
     index df = 6 * 50 * 30 * Z.max 0 N ∧
     ∀ i : nat, Z.of_nat i < index df →
       ∃ h, cell_at df i "horizon" = Some (CInt h) ∧
            cell_at df i "nowcast_date" = Some (CTime (timestamp_of_date 2024 1 26)) ∧
            cell_at df i "target_date"
            = Some (CTime (add_weeks (timestamp_of_date 2024 1 26) h))).
Proof.
  split.
  - eexists _, _. split; [apply make_df_d|].
    split; [rewrite index_frame, len_records, horizons_d, len_arange; lia|].
    intros i Hi.
    destruct (frame_row _ _ _ _ _ Hi) as (r & Hr & Hin).
    apply elem_of_records in Hin as (Hnow & _).
    exists (r_horizon r).
    rewrite cell_horizon, cell_nowcast_date, cell_target_date, Hr. cbn.
    by rewrite Hnow.
  - eexists _, _. split; [apply make_df_w|].
    split; [rewrite index_frame, len_records, (horizons_not_d "w"), len_arange by done;
            lia|].
    intros i Hi.
    destruct (frame_row _ _ _ _ _ Hi) as (r & Hr & Hin).
    apply elem_of_records in Hin as (Hnow & _).
    exists (r_horizon r).
    rewrite cell_horizon, cell_nowcast_date, cell_target_date, Hr. cbn.
    by rewrite Hnow.
Qed.

Lemma frame_in_order temp_scale N ns (vals : list Value) h0 H :
  horizons temp_scale = arange h0 (h0 + H) → 0 ≤ H → 0 < N →
  ∀ i, 0 ≤ i < index (frame (records temp_scale N) ns vals) →
    row_in_order (frame (records temp_scale N) ns vals) nowcast h0 N i.
Proof.
  intros HH HH0 HN i. unfold frame at 1. cbn [index].
  rewrite len_records, HH, len_arange. intros Hi.
  assert (Hr := records_at_index temp_scale N h0 H i HH HN ltac:(lia)).
  unfold row_in_order.
  rewrite cell_nowcast_date, cell_horizon, cell_location, cell_lineage,
    cell_output_type, cell_output_type_id, Hr.
  done.
Qed.

(** C5. For the two scales and every positive sample count, the rows of
    the frame that [make_df] returns are in the enumeration order of the
    cross product: in row [i] the sample index is [i mod N], the lineage
    [(i / N) mod 30], the location [(i / (30 N)) mod 50] and the horizon
    the lowest one plus [i / (50 * 30 * N)], so the horizon ascends and
    varies slowest and the sample index fastest; the date, outermost, is
    the one date of its pool.  The rows so described are all the
    35 * 50 * 30 * N, or 6 * 50 * 30 * N, rows of the frame, and the
    strings of the numbers below 50 and below 30 are "0" to "49" and "0"
    to "29". *)
Theorem C5_row_order (N : Z) (g : RngState) :
  0 < N →
  (∃ df g', mk_df "d" N g = Ok (df, g') ∧
     index df = 35 * 50 * 30 * N ∧
     ∀ i, 0 ≤ i < index df → row_in_order df (timestamp_of_date 2024 1 26) (-27) N i) ∧
  (∃ df g', mk_df "w" N g = Ok (df, g') ∧
     index df = 6 * 50 * 30 * N ∧
     ∀ i, 0 ≤ i < index df → row_in_order df (timestamp_of_date 2024 1 26) (-4) N i) ∧
  map str (arange 0 50) = strings_0_49 ∧
  map str (arange 0 30) = strings_0_29.
Proof.
  intros HN. split; [|split; [|split; reflexivity]].
  - eexists _, _. split; [apply make_df_d|].
    split; [rewrite index_frame, len_records, horizons_d, len_arange; lia|].
    apply (frame_in_order "d" N _ _ (-27) 35); [apply horizons_d|lia|done].
  - eexists _, _. split; [apply make_df_w|].
    split; [rewrite index_frame, len_records, (horizons_not_d "w"), len_arange by done;
            lia|].
    apply (frame_in_order "w" N _ _ (-4) 6); [by apply horizons_not_d|lia|done].
Qed.
End Scales.

Lemma C1_shape_witness :
  0 < 100 ∧
  (∃ df g', make_df pandas_unit lcg_draw "d" 100 0 = Ok (df, g') ∧
            shape df = (35 * 50 * 30 * 100, 8) ∧
            index df = 1 * len (horizons "d") * 50 * 30 * 1 * 100 ∧
            column_names df
            = ["nowcast_date"; "horizon"; "location"; "lineage"; "output_type";
               "output_type_id"; "target_date"; "value"] ∧
            Forall (λ c, series_len c.2 = 35 * 50 * 30 * 100) (columns df)).
Proof.
  split; [lia|].
  apply (C1_shape pandas_unit lcg_draw pandas_unit_d pandas_unit_w 100 0). lia.
Defined.

Lemma C2_target_date_witness :
  ∃ df g', make_df pandas_unit lcg_draw "w" 2 0 = Ok (df, g') ∧
    index df = 6 * 50 * 30 * Z.max 0 2 ∧
    ∀ i : nat, Z.of_nat i < index df →
      ∃ h, cell_at df i "horizon" = Some (CInt h) ∧
           cell_at df i "nowcast_date" = Some (CTime (timestamp_of_date 2024 1 26)) ∧
           cell_at df i "target_date"
           = Some (CTime (add_weeks (timestamp_of_date 2024 1 26) h)).
Proof.
  apply (C2_target_date pandas_unit lcg_draw pandas_unit_d pandas_unit_w 2 0).
Defined.

Lemma C5_row_order_witness :
  0 < 2 ∧
  ∃ df g', make_df pandas_unit lcg_draw "d" 2 0 = Ok (df, g') ∧
    index df = 35 * 50 * 30 * 2 ∧
    ∀ i, 0 ≤ i < index df → row_in_order df (timestamp_of_date 2024 1 26) (-27) 2 i.
Proof.
  split; [lia|].
  apply (C5_row_order pandas_unit lcg_draw pandas_unit_d pandas_unit_w 2 0). lia.
Defined.

(** ** The generator on any scale *)

Section AnyScale.
Context {Value RngState : Type}.
Variable timedelta_unit : string → result Z.
Variable draw : RngState → Value * RngState.

#[local] Abbreviation mk_df := (make_df timedelta_unit draw).

(** Whatever [make_df] returns is the closed-form frame of its records. *)
Lemma make_df_inv temp_scale N g df g' :
  mk_df temp_scale N g = Ok (df, g') →
  ∃ ns vals, timedelta_unit temp_scale = Ok ns ∧
             df = frame (records temp_scale N) ns vals.
Proof.
  rewrite make_df_eq. destruct (timedelta_unit temp_scale) as [ns|e]; [|done].
  intros [= <- _]. by eexists _, _.
Qed.

(** C6. A frame that [make_df] returns has 35 * 50 * 30 * N rows on the
    scale ["d"] and 6 * 50 * 30 * N on any other (none for an [N] below
    one).  Its location column holds only the strings "0" to "49" and its
    lineage column only the strings "0" to "29", and each of these values
    occurs equally often: a location in one row out of 50, that is 35 (or
    6) * 30 * N times, a lineage in one row out of 30, that is 35 (or 6)
    * 50 * N times. *)
Theorem C6_location_lineage temp_scale (N : Z) (g : RngState) df g' :
  mk_df temp_scale N g = Ok (df, g') →
  ∃ loc lin,
    getitem df "location" = Ok (StrSeries loc) ∧
    getitem df "lineage" = Ok (StrSeries lin) ∧
    index df = (if String.eqb temp_scale "d" then 35 else 6) * 50 * 30 * Z.max 0 N ∧
    len loc = index df ∧ len lin = index df ∧
    (∀ v, v ∈ loc → v ∈ strings_0_49) ∧
    (∀ v, v ∈ lin → v ∈ strings_0_29) ∧
    (∀ v, v ∈ strings_0_49 →
       count (String.eqb v) loc
       = (if String.eqb temp_scale "d" then 35 else 6) * 30 * Z.max 0 N ∧
       count (String.eqb v) loc = index df / 50 ∧ 50 * (index df / 50) = index df) ∧
    (∀ v, v ∈ strings_0_29 →
       count (String.eqb v) lin
       = (if String.eqb temp_scale "d" then 35 else 6) * 50 * Z.max 0 N ∧
       count (String.eqb v) lin = index df / 30 ∧ 30 * (index df / 30) = index df).
Proof.
  intros Hdf. apply make_df_inv in Hdf as (ns & vals & _ & ->).
  exists (map r_location (records temp_scale N)), (map r_lineage (records temp_scale N)).
  rewrite !index_frame.
  split; [apply getitem_frame_location|]. split; [apply getitem_frame_lineage|].
  rewrite !len_map, <- len_horizons.
  split; [apply len_records|]. split; [done|]. split; [done|].
  set (H := len (horizons temp_scale)). set (n := Z.max 0 N).
  assert (E50 : len (records temp_scale N) = (H * 30 * n) * 50)
    by (rewrite len_records; subst H n; ring).
  assert (E30 : len (records temp_scale N) = (H * 50 * n) * 30)
    by (rewrite len_records; subst H n; ring).
  split; [|split; [|split]].
  - intros v (r & -> & Hr)%list_elem_of_fmap.
    apply elem_of_records in Hr as (_ & _ & Hloc & _). by rewrite <- pool_50_strings.
  - intros v (r & -> & Hr)%list_elem_of_fmap.
    apply elem_of_records in Hr as (_ & _ & _ & Hlin & _). by rewrite <- pool_30_strings.
  - intros v Hv.
    rewrite count_location, pool_50_strings, count_strings_0_49 by done.
    rewrite E50, Z.div_mul by done. subst H n. repeat split; ring.
  - intros v Hv.
    rewrite count_lineage, pool_30_strings, count_strings_0_29 by done.
    rewrite E30, Z.div_mul by done. subst H n. repeat split; ring.
Qed.

(** C7. In every frame that [make_df] returns for sample count [N], the
    output_type_id column holds exactly the integers 0 to N-1, each
    equally often (in one row out of N), and the output_type column holds
    the string "sample" in every row. *)
Theorem C7_output_type temp_scale (N : Z) (g : RngState) df g' :
  mk_df temp_scale N g = Ok (df, g') →
  ∃ ids types,
    getitem df "output_type_id" = Ok (IntSeries ids) ∧
    getitem df "output_type" = Ok (StrSeries types) ∧
    len ids = index df ∧ len types = index df ∧
    (∀ v, v ∈ ids ↔ 0 ≤ v ≤ N - 1) ∧
    (∀ v, 0 ≤ v ≤ N - 1 →
       count (Z.eqb v) ids = index df / N ∧ N * (index df / N) = index df) ∧
    (∀ t, t ∈ types → t = "sample").
Proof.
  intros Hdf. apply make_df_inv in Hdf as (ns & vals & _ & ->).
  exists (map r_output_type_id (records temp_scale N)),
         (map r_output_type (records temp_scale N)).
  rewrite !index_frame.
  split; [apply getitem_frame_output_type_id|].
  split; [apply getitem_frame_output_type|].
  rewrite !len_map. split; [done|]. split; [done|].
  set (H := len (horizons temp_scale)).
  split; [|split].
  - intros v. rewrite list_elem_of_fmap. split.
    + intros (r & -> & Hr). apply elem_of_records in Hr. lia.
    + intros Hv. destruct (horizons_nonempty temp_scale) as [h Hh].
      exists (nowcast, h, "0", "0", "sample", v). split; [done|].
      apply elem_of_records. cbn.
      rewrite pool_50_strings, pool_30_strings.
      repeat split; [done| | |lia|lia]; apply list_elem_of_In; vm_compute; tauto.
  - intros v Hv.
    assert (E : len (records temp_scale N) = (H * 50 * 30) * N)
      by (rewrite len_records; subst H; lia).
    rewrite count_output_type_id, count_arange by lia.
    rewrite E, Z.div_mul by lia. subst H. split; ring.
  - intros t (r & -> & Hr)%list_elem_of_fmap.
    by apply elem_of_records in Hr as (_ & _ & _ & _ & Hot & _).
Qed.

(** C9. Two calls of [make_df] with the same scale and sample count,
    from whatever states of the random generator, either both raise the
    same exception or both return a frame, and the two frames have the
    same index and the same column names and agree on every column
    other than value. *)
Theorem C9_only_value_varies temp_scale (N : Z) (g1 g2 : RngState) :
  match mk_df temp_scale N g1, mk_df temp_scale N g2 with
  | Ok (df1, _), Ok (df2, _) =>
      index df1 = index df2 ∧
      column_names df1 = column_names df2 ∧
      drop df1 "value" = drop df2 "value" ∧
      ∀ key, key ≠ "value" → getitem df1 key = getitem df2 key
  | Raise e1, Raise e2 => e1 = e2
  | _, _ => False
  end.
Proof.
  rewrite !make_df_eq. destruct (timedelta_unit temp_scale) as [ns|e]; [|done].
  cbv zeta. generalize (records temp_scale N) as recs. intros recs.
  repeat split.
  intros key Hkey. unfold getitem, frame. cbn [columns col_lookup].
  do 7 (match goal with
        | |- context [String.eqb ?k key] => destruct (String.eqb k key); [done|]
        end).
  destruct (String.eqb_spec "value" key) as [<-|_]; done.
Qed.

End AnyScale.

(** ** Arguments that the script never passes

    [make_df] checks neither of its arguments: the scale goes to the unit
    resolution as it is, and a sample count below one gives empty pools. *)

Section Unguarded.
Context {Value RngState : Type}.
Variable timedelta_unit : string → result Z.
Variable draw : RngState → Value * RngState.

#[local] Abbreviation mk_df := (make_df timedelta_unit draw).

(** C3, as the code has it. [make_df] raises exactly when the unit
    resolution of [pd.to_timedelta] refuses the scale, and then with the
    exception of that resolution; for every scale the resolution accepts,
    one of the script's two or not, it returns a frame over the horizons
    chosen for the scale, whose target dates are the date 2024-01-26 plus
    [horizon] times the unit so named. *)
Theorem C3_unit_decides temp_scale (N : Z) (g : RngState) :
  match timedelta_unit temp_scale with
  | Raise e => mk_df temp_scale N g = Raise e
  | Ok ns =>
      ∃ df g', mk_df temp_scale N g = Ok (df, g') ∧
        index df = len (horizons temp_scale) * 50 * 30 * Z.max 0 N ∧
        ∀ i : nat, Z.of_nat i < index df →
          ∃ h, h ∈ horizons temp_scale ∧
               cell_at df i "horizon" = Some (CInt h) ∧
               cell_at df i "target_date"
               = Some (CTime (timestamp_of_date 2024 1 26 + h * ns))
  end.
Proof.
  rewrite make_df_eq. destruct (timedelta_unit temp_scale) as [ns|e]; [|done].
  cbv zeta. eexists _, _. split; [done|]. rewrite index_frame.
  split; [apply len_records|]. intros i Hi.
  destruct (lookup_lt_len _ _ Hi) as [r Hr].
  pose proof (list_elem_of_lookup_2 _ _ _ Hr) as Hin.
  apply elem_of_records in Hin as (Hnow & Hh & _).
  exists (r_horizon r). split; [done|].
  rewrite cell_horizon, cell_target_date, Hr. cbn. by rewrite Hnow.
Qed.

(** C4, as the code has it. For a sample count of zero or below and a
    scale that the unit resolution accepts, [make_df] raises nothing: it
    returns a frame of no rows under the eight column names and leaves
    the random generator as it was. *)
Theorem C4_empty_frame temp_scale (N : Z) (g : RngState) ns :
  N ≤ 0 →
  timedelta_unit temp_scale = Ok ns →
  ∃ df, mk_df temp_scale N g = Ok (df, g) ∧
        shape df = (0, 8) ∧
        column_names df
        = ["nowcast_date"; "horizon"; "location"; "lineage"; "output_type";
           "output_type_id"; "target_date"; "value"] ∧
        ∀ i key, cell_at df i key = None.
Proof.
  intros HN Hns. rewrite make_df_eq, Hns, records_nonpositive by done.
  cbv zeta. cbn [length draws fst snd]. eexists. split; [done|].
  split; [done|]. split; [done|]. intros i key.
  unfold cell_at, frame. cbn [columns col_lookup map].
  repeat (match goal with
          | |- context [String.eqb ?k key] => destruct (String.eqb k key); [done|]
          end).
  done.
Qed.
End Unguarded.

Lemma pandas_unit_h : pandas_unit "h" = Ok (3600 * 1000000000).
Proof. reflexivity. Qed.

(** A name that pandas does not know: its error comes back, with the
    name in it. *)
Example unknown_unit_raises :
  make_df pandas_unit lcg_draw "xyz" 100 0
  = Raise (ValueError "invalid unit abbreviation: xyz").
Proof. rewrite make_df_eq. reflexivity. Qed.

(** The claim C3 fails at the scale ["h"]: pandas reads it as hours, so
    [make_df] returns the weekly horizons moved by hours. *)
Lemma C3_counterexample :
  "h" ≠ "d" ∧ "h" ≠ "w" ∧
  ∃ df g', make_df pandas_unit lcg_draw "h" 1 0 = Ok (df, g') ∧
    shape df = (9000, 8) ∧
    cell_at df 0 "horizon" = Some (CInt (-4)) ∧
    cell_at df 0 "target_date"
    = Some (CTime (timestamp_of_date 2024 1 26 - 4 * 3600 * 1000000000)) ∧
    date_of_timestamp (timestamp_of_date 2024 1 26 - 4 * 3600 * 1000000000)
    = (2024, 1, 25).
Proof.
  split; [done|]. split; [done|].
  rewrite make_df_eq, pandas_unit_h. cbv zeta. eexists _, _. split; [done|].
  rewrite shape_frame, len_records, (horizons_not_d "h"), len_arange by done.
  split; [done|].
  pose proof (records_at_index "h" 1 (-4) 6 0 (horizons_not_d "h" ltac:(done))
                ltac:(lia) ltac:(lia)) as Hr.
  change (Z.to_nat 0) with 0%nat in Hr.
  rewrite cell_horizon, cell_target_date, Hr. done.
Qed.

Lemma C4_empty_frame_witness :
  ∃ df, make_df pandas_unit lcg_draw "d" (-3) 7 = Ok (df, 7) ∧
        shape df = (0, 8) ∧
        column_names df
        = ["nowcast_date"; "horizon"; "location"; "lineage"; "output_type";
           "output_type_id"; "target_date"; "value"] ∧
        ∀ i key, cell_at df i key = None.
Proof.
  apply (C4_empty_frame pandas_unit lcg_draw "d" (-3) 7 ns_per_day);
    [lia | reflexivity].
Defined.

(** The claim C4 fails at the sample counts 0 and -3: no exception, an
    empty frame. *)
Lemma C4_counterexample :
  make_df pandas_unit lcg_draw "d" 0 7
  = Ok (mkDataFrame 0
          [ ("nowcast_date", DatetimeSeries []); ("horizon", IntSeries []);
            ("location", StrSeries []); ("lineage", StrSeries []);
            ("output_type", StrSeries []); ("output_type_id", IntSeries []);
            ("target_date", DatetimeSeries []); ("value", FloatSeries []) ], 7) ∧
  make_df pandas_unit lcg_draw "w" (-3) 7
  = Ok (mkDataFrame 0
          [ ("nowcast_date", DatetimeSeries []); ("horizon", IntSeries []);
            ("location", StrSeries []); ("lineage", StrSeries []);
            ("output_type", StrSeries []); ("output_type_id", IntSeries []);
            ("target_date", DatetimeSeries []); ("value", FloatSeries []) ], 7).
Proof. split; vm_compute; reflexivity. Qed.

(** ** The driver *)

Section Driver.
Context {Value RngState : Type}.
Variable timedelta_unit : string → result Z.
Variable draw : RngState → Value * RngState.
Hypothesis unit_d : timedelta_unit "d" = Ok ns_per_day.
Hypothesis unit_w : timedelta_unit "w" = Ok (7 * ns_per_day).

#[local] Abbreviation mk_df := (make_df timedelta_unit draw).

(** One run of the statements from the interpreter state [w], with the
    draws of every call. *)
Lemma run_draws (mode : Mode) (w : World) :
  let k1 := length (records "d" 100) in
  let k2 := length (records "d" 500) in
  let k3 := length (records "w" 100) in
  let k4 := length (records "w" 500) in
  let g1 := (draws draw k1 (rng w)).2 in
  let g2 := (draws draw k2 g1).2 in
  let g3 := (draws draw k3 g2).2 in
  let g4 := (draws draw k4 g3).2 in
  let df1 := frame (records "d" 100) ns_per_day (draws draw k1 (rng w)).1 in
  let df2 := frame (records "d" 500) ns_per_day (draws draw k2 g1).1 in
  let df3 := frame (records "w" 100) (7 * ns_per_day) (draws draw k3 g2).1 in
  let df4 := frame (records "w" 500) (7 * ns_per_day) (draws draw k4 g3).1 in
  run timedelta_unit draw mode w
  = Ok (tt, mkWorld g4
              (<["parquet-file-sizes/example4.parquet" := df4]>
                 (<["parquet-file-sizes/example3.parquet" := df3]>
                    (<["parquet-file-sizes/example2.parquet" := df2]>
                       (<["parquet-file-sizes/example1.parquet" := df1]>
                          (files w)))))
              (stdout w ++
               match mode with
               | Script => []
               | Interactive =>
                   [repr_shape (shape df1); repr_shape (shape df2);
                    repr_shape (shape df3); repr_shape (shape df4)]
               end)%list).
Proof.
  cbv zeta. unfold run, bind, with_rng, to_parquet, expr_stmt.
  rewrite (make_df_d _ _ unit_d). cbn [rng files stdout].
  destruct mode; cbn [rng files stdout].
  - rewrite (make_df_d _ _ unit_d). cbn [rng files stdout].
    rewrite (make_df_w _ _ unit_w). cbn [rng files stdout].
    rewrite (make_df_w _ _ unit_w). cbn [rng files stdout].
    by rewrite app_nil_r.
  - rewrite (make_df_d _ _ unit_d). cbn [rng files stdout].
    rewrite (make_df_w _ _ unit_w). cbn [rng files stdout].
    rewrite (make_df_w _ _ unit_w). cbn [rng files stdout].
    by rewrite <- !app_assoc.
Qed.

(** One run of the script from the interpreter state [w]. *)
Lemma driver_run (w : World) :
  ∃ vals1 g1 vals2 g2 vals3 g3 vals4 g4,
    let df1 := frame (records "d" 100) ns_per_day vals1 in
    let df2 := frame (records "d" 500) ns_per_day vals2 in
    let df3 := frame (records "w" 100) (7 * ns_per_day) vals3 in
    let df4 := frame (records "w" 500) (7 * ns_per_day) vals4 in
    mk_df "d" 100 (rng w) = Ok (df1, g1) ∧
    mk_df "d" 500 g1 = Ok (df2, g2) ∧
    mk_df "w" 100 g2 = Ok (df3, g3) ∧
    mk_df "w" 500 g3 = Ok (df4, g4) ∧
    driver timedelta_unit draw w
    = Ok (tt, mkWorld g4
                (<["parquet-file-sizes/example4.parquet" := df4]>
                   (<["parquet-file-sizes/example3.parquet" := df3]>
                      (<["parquet-file-sizes/example2.parquet" := df2]>
                         (<["parquet-file-sizes/example1.parquet" := df1]>
                            (files w)))))
                (stdout w)).
Proof.
  eexists _, _, _, _, _, _, _, _. cbv zeta.
  split; [apply (make_df_d _ _ unit_d)|].
  split; [apply (make_df_d _ _ unit_d)|].
  split; [apply (make_df_w _ _ unit_w)|].
  split; [apply (make_df_w _ _ unit_w)|].
  unfold driver. rewrite (run_draws Script w). cbv zeta. by rewrite app_nil_r.
Qed.

Lemma repr_shapes :
  repr_shape (5250000, 8) = "(5250000, 8)" ∧
  repr_shape (26250000, 8) = "(26250000, 8)" ∧
  repr_shape (900000, 8) = "(900000, 8)" ∧
  repr_shape (4500000, 8) = "(4500000, 8)".
Proof. repeat split; reflexivity. Qed.

(** C8. The statements call [make_df] four times, with ("d", 100),
    ("d", 500), ("w", 100) and ("w", 500), each call taking the random
    generator where the one before left it, and write the four frames to
    the four different paths example1 to example4, leaving every other
    file alone.  The shapes, (5250000, 8), (26250000, 8), (900000, 8) and
    (4500000, 8), are evaluated by four bare expressions: typed at the
    prompt these put the four shapes on the standard output, in this
    order; in the file run as a script they put nothing there, so the
    driver reports no shape. *)
Theorem C8_driver (mode : Mode) (w : World) :
  ∃ df1 g1 df2 g2 df3 g3 df4 g4 w',
    mk_df "d" 100 (rng w) = Ok (df1, g1) ∧
    mk_df "d" 500 g1 = Ok (df2, g2) ∧
    mk_df "w" 100 g2 = Ok (df3, g3) ∧
    mk_df "w" 500 g3 = Ok (df4, g4) ∧
    run timedelta_unit draw mode w = Ok (tt, w') ∧
    (mode = Script → driver timedelta_unit draw w = Ok (tt, w')) ∧
    rng w' = g4 ∧
    files w' !! "parquet-file-sizes/example1.parquet" = Some df1 ∧
    files w' !! "parquet-file-sizes/example2.parquet" = Some df2 ∧
    files w' !! "parquet-file-sizes/example3.parquet" = Some df3 ∧
    files w' !! "parquet-file-sizes/example4.parquet" = Some df4 ∧
    (∀ path,
       path ∉ ["parquet-file-sizes/example1.parquet";
               "parquet-file-sizes/example2.parquet";
               "parquet-file-sizes/example3.parquet";
               "parquet-file-sizes/example4.parquet"] →
       files w' !! path = files w !! path) ∧
    NoDup ["parquet-file-sizes/example1.parquet";
           "parquet-file-sizes/example2.parquet";
           "parquet-file-sizes/example3.parquet";
           "parquet-file-sizes/example4.parquet"] ∧
    shape df1 = (5250000, 8) ∧ shape df2 = (26250000, 8) ∧
    shape df3 = (900000, 8) ∧ shape df4 = (4500000, 8) ∧
    stdout w'
    = (stdout w ++
       match mode with
       | Script => []
       | Interactive =>
           ["(5250000, 8)"; "(26250000, 8)"; "(900000, 8)"; "(4500000, 8)"]
       end)%list.
Proof.
  pose proof (run_draws mode w) as Hrun. cbv zeta in Hrun.
  eexists _, _, _, _, _, _, _, _, _.
  split; [apply (make_df_d _ _ unit_d)|].
  split; [apply (make_df_d _ _ unit_d)|].
  split; [apply (make_df_w _ _ unit_w)|].
  split; [apply (make_df_w _ _ unit_w)|].
  split; [exact Hrun|]. split; [by intros ->|]. clear Hrun.
  cbn [rng files stdout].
  split; [done|].
  split; [by rewrite !lookup_insert_ne, lookup_insert_eq by done|].
  split; [by rewrite !lookup_insert_ne, lookup_insert_eq by done|].
  split; [by rewrite lookup_insert_ne, lookup_insert_eq by done|].
  split; [by rewrite lookup_insert_eq|].
  split.
  { intros path Hpath. rewrite !not_elem_of_cons in Hpath.
    destruct Hpath as (? & ? & ? & ? & _). by rewrite !lookup_insert_ne. }
  split.
  { apply (bool_decide_unpack _). by vm_compute. }
  rewrite !shape_frame, !len_records, horizons_d, (horizons_not_d "w"), !len_arange by done.
  change (0 `max` (8 - -27) * 50 * 30 * 0 `max` 100) with 5250000.
  change (0 `max` (8 - -27) * 50 * 30 * 0 `max` 500) with 26250000.
  change (0 `max` (2 - -4) * 50 * 30 * 0 `max` 100) with 900000.
  change (0 `max` (2 - -4) * 50 * 30 * 0 `max` 500) with 4500000.
  do 4 (split; [reflexivity|]).
  destruct repr_shapes as (-> & -> & -> & ->). reflexivity.
Qed.
End Driver.

Lemma C8_driver_witness :
  ∃ w', driver pandas_unit lcg_draw fresh_world = Ok (tt, w') ∧
        is_Some (files w' !! "parquet-file-sizes/example1.parquet") ∧
        is_Some (files w' !! "parquet-file-sizes/example4.parquet") ∧
        stdout w' = [].
Proof.
  destruct (C8_driver pandas_unit lcg_draw pandas_unit_d pandas_unit_w Script fresh_world)
    as (df1 & g1 & df2 & g2 & df3 & g3 & df4 & g4 & w' & _ & _ & _ & _ & _ & Hrun
        & _ & F1 & _ & _ & F4 & _ & _ & _ & _ & _ & _ & Hout).
  exists w'. split; [exact (Hrun eq_refl)|]. rewrite F1, F4. split; [by eexists|].
  split; [by eexists|]. exact Hout.
Defined.

Lemma C6_location_lineage_witness :
  ∃ df g', make_df pandas_unit lcg_draw "w" 2 0 = Ok (df, g') ∧
    ∃ loc lin,
      getitem df "location" = Ok (StrSeries loc) ∧
      getitem df "lineage" = Ok (StrSeries lin) ∧
      index df = (if String.eqb "w" "d" then 35 else 6) * 50 * 30 * Z.max 0 2 ∧
      len loc = index df ∧ len lin = index df ∧
      (∀ v, v ∈ loc → v ∈ strings_0_49) ∧
      (∀ v, v ∈ lin → v ∈ strings_0_29) ∧
      (∀ v, v ∈ strings_0_49 →
         count (String.eqb v) loc
         = (if String.eqb "w" "d" then 35 else 6) * 30 * Z.max 0 2 ∧
         count (String.eqb v) loc = index df / 50 ∧ 50 * (index df / 50) = index df) ∧
      (∀ v, v ∈ strings_0_29 →
         count (String.eqb v) lin
         = (if String.eqb "w" "d" then 35 else 6) * 50 * Z.max 0 2 ∧
         count (String.eqb v) lin = index df / 30 ∧ 30 * (index df / 30) = index df).
Proof.
  eexists _, _. split; [apply (make_df_w pandas_unit lcg_draw pandas_unit_w)|].
  apply (C6_location_lineage pandas_unit lcg_draw "w" 2 0 _ _
           (make_df_w pandas_unit lcg_draw pandas_unit_w 2 0)).
Defined.

Lemma C7_output_type_witness :
  ∃ df g', make_df pandas_unit lcg_draw "d" 2 0 = Ok (df, g') ∧
    ∃ ids types,
      getitem df "output_type_id" = Ok (IntSeries ids) ∧
      getitem df "output_type" = Ok (StrSeries types) ∧
      len ids = index df ∧ len types = index df ∧
      (∀ v, v ∈ ids ↔ 0 ≤ v ≤ 2 - 1) ∧
      (∀ v, 0 ≤ v ≤ 2 - 1 →
         count (Z.eqb v) ids = index df / 2 ∧ 2 * (index df / 2) = index df) ∧
      (∀ t, t ∈ types → t = "sample").
Proof.
  eexists _, _. split; [apply (make_df_d pandas_unit lcg_draw pandas_unit_d)|].
  apply (C7_output_type pandas_unit lcg_draw "d" 2 0 _ _
           (make_df_d pandas_unit lcg_draw pandas_unit_d 2 0)).
Defined.

(** The value column does follow the generator: two seeds, two columns,
    and the same frame otherwise. *)
Example value_follows_generator :
  ∃ df1 g1 df2 g2,
    make_df pandas_unit lcg_draw "w" 1 0 = Ok (df1, g1) ∧
    make_df pandas_unit lcg_draw "w" 1 1 = Ok (df2, g2) ∧
    cell_at df1 0 "value" ≠ cell_at df2 0 "value" ∧
    drop df1 "value" = drop df2 "value".
Proof.
  eexists _, _, _, _.
  split; [apply (make_df_w pandas_unit lcg_draw pandas_unit_w)|].
  split; [apply (make_df_w pandas_unit lcg_draw pandas_unit_w)|].
  split; [|apply drop_value_frame].
  rewrite !cell_value. vm_compute. discriminate.
Qed.

(** * Further properties of the generator and of the driver *)

(** ** Products without repetition *)

Lemma NoDup_list_prod {A B} (xs : list A) (ys : list B) :
  NoDup xs → NoDup ys → NoDup (list_prod xs ys).
Proof.
  intros Hxs Hys. induction Hxs as [|x xs Hx Hxs IH]; simpl; [constructor|].
  apply NoDup_app. split; [|split; [|exact IH]].
  - by apply (NoDup_fmap_2 (pair x)).
  - intros [a b] (y & [= -> ->] & _)%list_elem_of_fmap Hin.
    by apply elem_of_prod in Hin as [? _].
Qed.

Lemma NoDup_strings_0_49 : NoDup strings_0_49.
Proof. apply (bool_decide_unpack _). by vm_compute. Qed.

Lemma NoDup_strings_0_29 : NoDup strings_0_29.
Proof. apply (bool_decide_unpack _). by vm_compute. Qed.

Lemma NoDup_horizons temp_scale : NoDup (horizons temp_scale).
Proof. unfold horizons. destruct (String.eqb _ _); apply NoDup_seqZ. Qed.

(** No record is listed twice. *)
Lemma NoDup_records temp_scale n_samples : NoDup (records temp_scale n_samples).
Proof.
  unfold records, product6. rewrite pool_50_strings, pool_30_strings.
  repeat apply NoDup_list_prod;
    auto using NoDup_singleton, NoDup_horizons, NoDup_strings_0_49,
      NoDup_strings_0_29, NoDup_seqZ.
  apply NoDup_seqZ.
Qed.

Lemma count_horizon (p : Z → bool) temp_scale n_samples :
  count p (map r_horizon (records temp_scale n_samples))
  = count p (horizons temp_scale) * 50 * 30 * Z.max 0 n_samples.
Proof.
  unfold records, product6.
  rewrite (count_via_fst p _ (λ r, r.1.1.1.2)) by done.
  rewrite (count_via_fst p _ (λ r, r.1.1.2)) by done.
  rewrite (count_via_fst p _ (λ r, r.1.2)) by done.
  rewrite (count_via_fst p _ (λ r, r.2)) by done.
  rewrite (count_via_snd p _ (λ x, x)) by done.
  rewrite map_id, len_pool_50, len_pool_30, len_arange.
  change (len [nowcast]) with 1. change (len ["sample"]) with 1.
  rewrite Z.sub_0_r. ring.
Qed.

(** ** Draws in a row *)

Section Draws.
Context {Value RngState : Type}.
Variable draw : RngState → Value * RngState.

#[local] Abbreviation sample := (draws draw).

(** [a + b] draws are [a] draws and then [b] more from where they end. *)
Lemma draws_add a b g :
  sample (a + b) g
  = (((sample a g).1 ++ (sample b (sample a g).2).1)%list, (sample b (sample a g).2).2).
Proof.
  revert g. induction a as [|a IH]; intros g; simpl.
  - by destruct (sample b g).
  - destruct (draw g) as [v g1]. rewrite IH.
    destruct (sample a g1) as [vs g2]. simpl. by destruct (sample b g2).
Qed.

(** Entry [i] of a run of draws is the draw made after [i] earlier ones. *)
Lemma draws_lookup k i g :
  (i < k)%nat → (sample k g).1 !! i = Some (draw (sample i g).2).1.
Proof.
  revert i g. induction k as [|k IH]; intros i g Hi; [lia|].
  simpl. destruct (draw g) as [v g1] eqn:Hd.
  destruct i as [|i].
  - destruct (sample k g1). simpl. by rewrite Hd.
  - specialize (IH i g1 ltac:(lia)). simpl. rewrite Hd.
    destruct (sample k g1) as [vs g2]. destruct (sample i g1) as [vs' g3].
    simpl in *. exact IH.
Qed.
End Draws.

(** ** Rows, columns and cells of a returned frame *)

Lemma records_horizon_at temp_scale n_samples (i : nat) r :
  records temp_scale n_samples !! i = Some r →
  0 < n_samples ∧
  ∃ h0, horizons temp_scale !! 0%nat = Some h0 ∧
        r_horizon r = h0 + Z.of_nat i / (50 * 30 * n_samples).
Proof.
  intros Hr.
  assert (HN : 0 < n_samples).
  { destruct (Z.lt_ge_cases 0 n_samples) as [|Hle]; [done|].
    by rewrite records_nonpositive in Hr by done. }
  split; [done|].
  pose proof (lookup_lt_Some _ _ _ Hr) as Hi.
  assert (Hlen := len_records temp_scale n_samples). unfold len in Hlen at 1.
  destruct (horizons_cases temp_scale) as [[_ HH]|[_ HH]].
  - exists (-27). rewrite HH. split; [done|].
    rewrite HH, len_arange in Hlen.
    pose proof (records_at_index temp_scale n_samples (-27) 35 (Z.of_nat i) HH HN
                  ltac:(lia)) as E.
    rewrite Nat2Z.id, Hr in E. by injection E as ->.
  - exists (-4). rewrite HH. split; [done|].
    rewrite HH, len_arange in Hlen.
    pose proof (records_at_index temp_scale n_samples (-4) 6 (Z.of_nat i) HH HN
                  ltac:(lia)) as E.
    rewrite Nat2Z.id, Hr in E. by injection E as ->.
Qed.

(** Down the list of records the horizon never decreases. *)
Lemma records_horizon_mono temp_scale n_samples (i j : nat) ri rj :
  records temp_scale n_samples !! i = Some ri →
  records temp_scale n_samples !! j = Some rj →
  (i ≤ j)%nat → r_horizon ri ≤ r_horizon rj.
Proof.
  intros Hi Hj Hij.
  destruct (records_horizon_at _ _ _ _ Hi) as (HN & h0 & H0 & ->).
  destruct (records_horizon_at _ _ _ _ Hj) as (_ & h0' & H0' & ->).
  assert (h0' = h0) as -> by congruence.
  apply Z.add_le_mono_l, Z.div_le_mono; lia.
Qed.

Ltac under_a_name :=
  split; [intros ?; split; [done|apply list_elem_of_In; vm_compute; tauto]
         |by intros [? _]].

Section FrameReadings.
Context {Value RngState : Type}.
Variable timedelta_unit : string → result Z.
Variable draw : RngState → Value * RngState.

#[local] Abbreviation mk_df := (make_df timedelta_unit draw).

(** What [make_df] returns, with the draws it made. *)
Lemma make_df_inv_draws temp_scale N g df g' :
  mk_df temp_scale N g = Ok (df, g') →
  ∃ ns, timedelta_unit temp_scale = Ok ns ∧
        df = frame (records temp_scale N) ns
               (draws draw (length (records temp_scale N)) g).1 ∧
        g' = (draws draw (length (records temp_scale N)) g).2.
Proof.
  rewrite make_df_eq. destruct (timedelta_unit temp_scale) as [ns|e]; [|done].
  intros [= <- <-]. by exists ns.
Qed.

Lemma getitem_frame_horizon recs ns (vals : list Value) :
  getitem (frame recs ns vals) "horizon" = Ok (IntSeries (map r_horizon recs)).
Proof. reflexivity. Qed.

(** X1. In a frame that [make_df] returns, horizon, location, lineage and
    output_type_id together identify the row: no two rows agree on all
    four, and every combination of a horizon of the scale, a location
    below 50, a lineage below 30 and a sample below [N] is the key of a
    row. *)
Theorem X1_rows_keyed temp_scale (N : Z) (g : RngState) df g' :
  mk_df temp_scale N g = Ok (df, g') →
  (∀ i j : nat, Z.of_nat i < index df → Z.of_nat j < index df →
     row_key df i = row_key df j → i = j) ∧
  (∀ h b c d, h ∈ horizons temp_scale → 0 ≤ b < 50 → 0 ≤ c < 30 → 0 ≤ d < N →
     ∃ i : nat, Z.of_nat i < index df ∧
       row_key df i
       = (Some (CInt h), Some (CStr (str b)), Some (CStr (str c)), Some (CInt d))).
Proof.
  intros Hdf. apply make_df_inv in Hdf as (ns & vals & _ & ->).
  rewrite index_frame. unfold row_key. split.
  - intros i j Hi Hj.
    destruct (lookup_lt_len _ _ Hi) as [ri Hri].
    destruct (lookup_lt_len _ _ Hj) as [rj Hrj].
    rewrite !cell_horizon, !cell_location, !cell_lineage, !cell_output_type_id, Hri, Hrj.
    cbn. intros [= Eh Eloc Elin Eid].
    pose proof (list_elem_of_lookup_2 _ _ _ Hri) as Ini.
    pose proof (list_elem_of_lookup_2 _ _ _ Hrj) as Inj.
    apply elem_of_records in Ini as (Ni & _ & _ & _ & Ti & _).
    apply elem_of_records in Inj as (Nj & _ & _ & _ & Tj & _).
    assert (ri = rj) as <-.
    { destruct ri as [[[[[? ?] ?] ?] ?] ?], rj as [[[[[? ?] ?] ?] ?] ?].
      unfold r_nowcast_date, r_horizon, r_location, r_lineage, r_output_type,
        r_output_type_id in *. simpl in *. congruence. }
    exact (NoDup_lookup _ _ _ _ (NoDup_records temp_scale N) Hri Hrj).
  - intros h b c d Hh Hb Hc Hd.
    apply list_elem_of_lookup_1 in Hh as [a Ha].
    pose proof (lookup_records temp_scale N (Z.of_nat a) b c d h) as Hr.
    rewrite Nat2Z.id in Hr. specialize (Hr Ha ltac:(lia) Hb Hc Hd).
    set (i := Z.to_nat _) in Hr. exists i. split.
    + pose proof (lookup_lt_Some _ _ _ Hr) as Hlt. unfold len. lia.
    + rewrite !cell_horizon, !cell_location, !cell_lineage, !cell_output_type_id.
      by rewrite Hr.
Qed.

(** X2. In a frame that [make_df] returns, the horizon column holds only
    horizons of the scale, and each of them equally often: in 50 * 30 * N
    rows, one row out of as many as there are horizons. *)
Theorem X2_horizon_column temp_scale (N : Z) (g : RngState) df g' :
  mk_df temp_scale N g = Ok (df, g') →
  ∃ hz,
    getitem df "horizon" = Ok (IntSeries hz) ∧
    len hz = index df ∧
    (∀ h, h ∈ hz → h ∈ horizons temp_scale) ∧
    (∀ h, h ∈ horizons temp_scale →
       count (Z.eqb h) hz = 50 * 30 * Z.max 0 N ∧
       len (horizons temp_scale) * count (Z.eqb h) hz = index df).
Proof.
  intros Hdf. apply make_df_inv in Hdf as (ns & vals & _ & ->).
  exists (map r_horizon (records temp_scale N)). rewrite index_frame.
  split; [apply getitem_frame_horizon|]. rewrite len_map. split; [done|]. split.
  - intros h (r & -> & Hr)%list_elem_of_fmap.
    by apply elem_of_records in Hr as (_ & Hh & _).
  - intros h Hh. rewrite count_horizon, len_records.
    assert (count (Z.eqb h) (horizons temp_scale) = 1) as ->.
    { destruct (horizons_cases temp_scale) as [[_ HH]|[_ HH]];
        rewrite HH in Hh |- *; apply count_arange; by apply elem_of_arange. }
    split; ring.
Qed.

(** X3. A frame that [make_df] returns is rectangular: its columns are the
    eight named ones in this order, every column has as many entries as
    the index is long, and a cell exists exactly at the rows below the
    index length under those names. *)
Theorem X3_rectangular temp_scale (N : Z) (g : RngState) df g' :
  mk_df temp_scale N g = Ok (df, g') →
  column_names df
  = ["nowcast_date"; "horizon"; "location"; "lineage"; "output_type";
     "output_type_id"; "target_date"; "value"] ∧
  Forall (λ c, series_len c.2 = index df) (columns df) ∧
  (∀ (i : nat) key,
     is_Some (cell_at df i key) ↔ Z.of_nat i < index df ∧ key ∈ column_names df).
Proof.
  intros Hdf. apply make_df_inv_draws in Hdf as (ns & _ & -> & _).
  set (recs := records temp_scale N).
  pose proof (length_draws draw (length recs) g) as Hvals.
  set (vals := (draws draw (length recs) g).1) in *.
  split; [done|]. split.
  - unfold frame. cbn [columns index].
    repeat (apply Forall_cons; split; [cbn; by rewrite len_map|]).
    apply Forall_cons. split; [|constructor]. cbn. unfold len. by rewrite Hvals.
  - intros i key. rewrite column_names_frame, index_frame.
    assert (Hrow : ∀ f : Record6 → Cell Value,
              is_Some (f <$> recs !! i) ↔ Z.of_nat i < len recs).
    { intros f. rewrite fmap_is_Some, lookup_lt_is_Some. unfold len. lia. }
    assert (Hval : is_Some (CFloat <$> vals !! i) ↔ Z.of_nat i < len recs).
    { rewrite fmap_is_Some, lookup_lt_is_Some, Hvals. unfold len. lia. }
    destruct (decide (key = "nowcast_date")) as [->|?];
      [rewrite cell_nowcast_date, Hrow; under_a_name|].
    destruct (decide (key = "horizon")) as [->|?];
      [rewrite cell_horizon, Hrow; under_a_name|].
    destruct (decide (key = "location")) as [->|?];
      [rewrite cell_location, Hrow; under_a_name|].
    destruct (decide (key = "lineage")) as [->|?];
      [rewrite cell_lineage, Hrow; under_a_name|].
    destruct (decide (key = "output_type")) as [->|?];
      [rewrite cell_output_type, Hrow; under_a_name|].
    destruct (decide (key = "output_type_id")) as [->|?];
      [rewrite cell_output_type_id, Hrow; under_a_name|].
    destruct (decide (key = "target_date")) as [->|?];
      [rewrite cell_target_date, Hrow; under_a_name|].
    destruct (decide (key = "value")) as [->|?];
      [rewrite cell_value, Hval; under_a_name|].
    unfold cell_at, frame. cbn [columns col_lookup].
    repeat (match goal with
            | |- context [String.eqb ?k key] =>
                destruct (String.eqb_spec k key); [congruence|]
            end).
    split; [by intros [? ?]|]. intros [_ Hin].
    rewrite !elem_of_cons, elem_of_nil in Hin. intuition congruence.
Qed.

(** X4. The value column of a frame that [make_df] returns is one run of
    draws: as many as the frame has rows, taken in row order from where
    the generator stood at the call, so that the value of row [i] is the
    draw made after [i] earlier ones; the generator is left where that run
    ends. *)
Theorem X4_value_draws temp_scale (N : Z) (g : RngState) df g' :
  mk_df temp_scale N g = Ok (df, g') →
  ∃ vals,
    getitem df "value" = Ok (FloatSeries vals) ∧
    len vals = index df ∧
    (vals, g') = draws draw (Z.to_nat (index df)) g ∧
    ∀ i : nat, Z.of_nat i < index df →
      cell_at df i "value" = Some (CFloat (draw (draws draw i g).2).1).
Proof.
  intros Hdf. apply make_df_inv_draws in Hdf as (ns & _ & -> & ->).
  set (recs := records temp_scale N).
  pose proof (length_draws draw (length recs) g) as Hvals.
  exists (draws draw (length recs) g).1. rewrite index_frame.
  split; [done|]. split; [unfold len; by rewrite Hvals|].
  replace (Z.to_nat (len recs)) with (length recs) by (unfold len; lia).
  split; [by destruct (draws draw (length recs) g)|].
  intros i Hi. rewrite cell_value, (draws_lookup draw (length recs) i g); [done|].
  unfold len in Hi. lia.
Qed.

(** X5. Where the unit is not negative, the rows of a frame that
    [make_df] returns are in order of time: from a row to any later row
    neither the horizon nor the target date decreases. *)
Theorem X5_sorted_by_time temp_scale (N : Z) (g : RngState) df g' ns :
  timedelta_unit temp_scale = Ok ns → 0 ≤ ns →
  mk_df temp_scale N g = Ok (df, g') →
  ∀ (i j : nat) hi hj ti tj,
    (i ≤ j)%nat →
    cell_at df i "horizon" = Some (CInt hi) →
    cell_at df j "horizon" = Some (CInt hj) →
    cell_at df i "target_date" = Some (CTime ti) →
    cell_at df j "target_date" = Some (CTime tj) →
    hi ≤ hj ∧ ti ≤ tj.
Proof.
  intros Hns Hpos Hdf. apply make_df_inv_draws in Hdf as (ns' & Hns' & -> & _).
  assert (ns' = ns) as -> by congruence.
  intros i j hi hj ti tj Hij.
  rewrite !cell_horizon, !cell_target_date.
  destruct (records temp_scale N !! i) as [ri|] eqn:Hri; [|done].
  destruct (records temp_scale N !! j) as [rj|] eqn:Hrj; [|done].
  cbn. intros [= <-] [= <-] [= <-] [= <-].
  pose proof (records_horizon_mono _ _ _ _ _ _ Hri Hrj Hij) as Hmono.
  apply list_elem_of_lookup_2, elem_of_records in Hri as (-> & _).
  apply list_elem_of_lookup_2, elem_of_records in Hrj as (-> & _).
  split; [done|]. nia.
Qed.
End FrameReadings.

(** ** The two scales: calendar dates; the driver: draws and reruns *)

Lemma nowcast_days : nowcast = 19748 * ns_per_day.
Proof. reflexivity. Qed.

Section ScalesFurther.
Context {Value RngState : Type}.
Variable timedelta_unit : string → result Z.
Variable draw : RngState → Value * RngState.
Hypothesis unit_d : timedelta_unit "d" = Ok ns_per_day.
Hypothesis unit_w : timedelta_unit "w" = Ok (7 * ns_per_day).

#[local] Abbreviation mk_df := (make_df timedelta_unit draw).

Lemma frame_target (temp_scale : string) (N ns : Z) (vals : list Value) (i : nat) t :
  cell_at (frame (records temp_scale N) ns vals) i "target_date" = Some (CTime t) →
  ∃ h, h ∈ horizons temp_scale ∧ t = nowcast + h * ns.
Proof.
  rewrite cell_target_date.
  destruct (records temp_scale N !! i) as [r|] eqn:Hr; [|done].
  cbn. intros [= <-].
  apply list_elem_of_lookup_2, elem_of_records in Hr as (-> & Hh & _).
  by exists (r_horizon r).
Qed.

(** X6. Every target date is a midnight.  On the day scale the target
    dates lie from 2023-12-30 to 2024-02-02; on the week scale they lie
    from 2023-12-29 to 2024-02-02 and fall on the weekday of the nowcast
    date, a Friday. *)
Theorem X6_target_calendar (N : Z) (g : RngState) :
  (∃ df g', mk_df "d" N g = Ok (df, g') ∧
     ∀ (i : nat) t, cell_at df i "target_date" = Some (CTime t) →
       t mod ns_per_day = 0 ∧
       timestamp_of_date 2023 12 30 ≤ t ≤ timestamp_of_date 2024 2 2) ∧
  (∃ df g', mk_df "w" N g = Ok (df, g') ∧
     ∀ (i : nat) t, cell_at df i "target_date" = Some (CTime t) →
       t mod ns_per_day = 0 ∧
       weekday t = weekday (timestamp_of_date 2024 1 26) ∧ weekday t = 5 ∧
       timestamp_of_date 2023 12 29 ≤ t ≤ timestamp_of_date 2024 2 2).
Proof.
  split.
  - eexists _, _. split; [apply (make_df_d _ _ unit_d)|]. intros i t Ht.
    apply frame_target in Ht as (h & Hh & ->).
    rewrite horizons_d in Hh. apply elem_of_arange in Hh. rewrite nowcast_days.
    replace (19748 * ns_per_day + h * ns_per_day) with ((19748 + h) * ns_per_day) by ring.
    split; [apply Z.mod_mul; done|].
    change (timestamp_of_date 2023 12 30) with (19721 * ns_per_day).
    change (timestamp_of_date 2024 2 2) with (19755 * ns_per_day).
    change ns_per_day with 86400000000000. lia.
  - eexists _, _. split; [apply (make_df_w _ _ unit_w)|]. intros i t Ht.
    apply frame_target in Ht as (h & Hh & ->).
    rewrite (horizons_not_d "w") in Hh by done. apply elem_of_arange in Hh.
    rewrite nowcast_days.
    replace (19748 * ns_per_day + h * (7 * ns_per_day))
      with ((19748 + 7 * h) * ns_per_day) by ring.
    split; [apply Z.mod_mul; done|].
    assert (Hwd : weekday ((19748 + 7 * h) * ns_per_day) = 5).
    { unfold weekday. rewrite Z.div_mul by done.
      replace (19748 + 7 * h + 4) with (19752 + h * 7) by ring.
      by rewrite Z.mod_add. }
    split; [by rewrite Hwd|]. split; [done|].
    change (timestamp_of_date 2023 12 29) with (19720 * ns_per_day).
    change (timestamp_of_date 2024 2 2) with (19755 * ns_per_day).
    change ns_per_day with 86400000000000. lia.
Qed.

(** One run of the script, with the draws of every call. *)
Lemma driver_run_draws (w : World) :
  let k1 := length (records "d" 100) in
  let k2 := length (records "d" 500) in
  let k3 := length (records "w" 100) in
  let k4 := length (records "w" 500) in
  let g1 := (draws draw k1 (rng w)).2 in
  let g2 := (draws draw k2 g1).2 in
  let g3 := (draws draw k3 g2).2 in
  let g4 := (draws draw k4 g3).2 in
  let df1 := frame (records "d" 100) ns_per_day (draws draw k1 (rng w)).1 in
  let df2 := frame (records "d" 500) ns_per_day (draws draw k2 g1).1 in
  let df3 := frame (records "w" 100) (7 * ns_per_day) (draws draw k3 g2).1 in
  let df4 := frame (records "w" 500) (7 * ns_per_day) (draws draw k4 g3).1 in
  driver timedelta_unit draw w
  = Ok (tt, mkWorld g4
              (<["parquet-file-sizes/example4.parquet" := df4]>
                 (<["parquet-file-sizes/example3.parquet" := df3]>
                    (<["parquet-file-sizes/example2.parquet" := df2]>
                       (<["parquet-file-sizes/example1.parquet" := df1]>
                          (files w)))))
              (stdout w)).
Proof.
  cbv zeta. unfold driver.
  rewrite (run_draws timedelta_unit draw unit_d unit_w Script w).
  cbv zeta. by rewrite app_nil_r.
Qed.

Lemma length_records_calls :
  len (records "d" 100) = 5250000 ∧
  len (records "d" 500) = 26250000 ∧
  len (records "w" 100) = 900000 ∧
  len (records "w" 500) = 4500000.
Proof.
  rewrite !len_records, horizons_d, (horizons_not_d "w"), !len_arange by done.
  repeat split; reflexivity.
Qed.

(** X7. The four calls of the driver draw from one stream: put end to end
    in the order of the calls, the value columns of the four files are the
    first 36,900,000 draws from where the generator stood before the run,
    and the generator is left where those draws end. *)
Theorem X7_driver_draws (w : World) :
  ∃ w' df1 df2 df3 df4 v1 v2 v3 v4,
    driver timedelta_unit draw w = Ok (tt, w') ∧
    files w' !! "parquet-file-sizes/example1.parquet" = Some df1 ∧
    files w' !! "parquet-file-sizes/example2.parquet" = Some df2 ∧
    files w' !! "parquet-file-sizes/example3.parquet" = Some df3 ∧
    files w' !! "parquet-file-sizes/example4.parquet" = Some df4 ∧
    getitem df1 "value" = Ok (FloatSeries v1) ∧
    getitem df2 "value" = Ok (FloatSeries v2) ∧
    getitem df3 "value" = Ok (FloatSeries v3) ∧
    getitem df4 "value" = Ok (FloatSeries v4) ∧
    len v1 = 5250000 ∧ len v2 = 26250000 ∧ len v3 = 900000 ∧ len v4 = 4500000 ∧
    ((v1 ++ v2 ++ v3 ++ v4)%list, rng w') = draws draw (Z.to_nat 36900000) (rng w).
Proof.
  pose proof (driver_run_draws w) as Hrun. cbv zeta in Hrun.
  set (k1 := length (records "d" 100)) in *.
  set (k2 := length (records "d" 500)) in *.
  set (k3 := length (records "w" 100)) in *.
  set (k4 := length (records "w" 500)) in *.
  eexists _, _, _, _, _, _, _, _, _. split; [exact Hrun|]. cbn [rng files stdout].
  split; [by rewrite !lookup_insert_ne, lookup_insert_eq by done|].
  split; [by rewrite !lookup_insert_ne, lookup_insert_eq by done|].
  split; [by rewrite lookup_insert_ne, lookup_insert_eq by done|].
  split; [by rewrite lookup_insert_eq|].
  do 4 (split; [reflexivity|]).
  assert (L1 : Z.of_nat k1 = 5250000) by (subst k1; apply length_records_calls).
  assert (L2 : Z.of_nat k2 = 26250000) by (subst k2; apply length_records_calls).
  assert (L3 : Z.of_nat k3 = 900000) by (subst k3; apply length_records_calls).
  assert (L4 : Z.of_nat k4 = 4500000) by (subst k4; apply length_records_calls).
  pose proof (length_draws draw k1 (rng w)) as E1.
  pose proof (length_draws draw k2 (draws draw k1 (rng w)).2) as E2.
  pose proof (length_draws draw k3 (draws draw k2 (draws draw k1 (rng w)).2).2) as E3.
  pose proof (length_draws draw k4
                (draws draw k3 (draws draw k2 (draws draw k1 (rng w)).2).2).2) as E4.
  unfold len. rewrite E1, E2, E3, E4.
  do 4 (split; [lia|]).
  replace (Z.to_nat 36900000) with (k1 + (k2 + (k3 + k4)))%nat by lia.
  by rewrite !draws_add.
Qed.

(** X8. A second run of the driver right after a first one changes no
    file but in its value column.  The first run leaves the files it
    found and the four it writes; the second one leaves the same paths,
    and under every path a frame that agrees with that of the first run
    once the value column is dropped. *)
Theorem X8_rerun (w : World) :
  ∃ w1 w2,
    driver timedelta_unit draw w = Ok (tt, w1) ∧
    driver timedelta_unit draw w1 = Ok (tt, w2) ∧
    dom (files w1)
    = dom (files w) ∪ {[ "parquet-file-sizes/example1.parquet";
                         "parquet-file-sizes/example2.parquet";
                         "parquet-file-sizes/example3.parquet";
                         "parquet-file-sizes/example4.parquet" ]} ∧
    dom (files w2) = dom (files w1) ∧
    ∀ path,
      (λ df, drop df "value") <$> files w2 !! path
      = (λ df, drop df "value") <$> files w1 !! path.
Proof.
  pose proof (driver_run_draws w) as Hrun1. cbv zeta in Hrun1.
  eexists _, _. split; [exact Hrun1|]. clear Hrun1.
  split; [apply driver_run_draws|]. cbn [rng files stdout].
  split; [|split].
  - rewrite !dom_insert_L. apply set_eq. intros x.
    rewrite !elem_of_union, !elem_of_singleton. tauto.
  - rewrite !dom_insert_L. apply set_eq. intros x.
    rewrite !elem_of_union, !elem_of_singleton. tauto.
  - intros path. rewrite !lookup_insert.
    repeat case_decide; subst; try done;
      cbn [fmap option_fmap option_map]; f_equal; apply drop_value_frame.
Qed.
End ScalesFurther.

(** ** The further properties on the pandas units and a seeded generator *)

Lemma X1_rows_keyed_witness :
  ∃ df g', make_df pandas_unit lcg_draw "w" 2 0 = Ok (df, g') ∧
    (∀ i j : nat, Z.of_nat i < index df → Z.of_nat j < index df →
       row_key df i = row_key df j → i = j) ∧
    (∀ h b c d, h ∈ horizons "w" → 0 ≤ b < 50 → 0 ≤ c < 30 → 0 ≤ d < 2 →
       ∃ i : nat, Z.of_nat i < index df ∧
         row_key df i
         = (Some (CInt h), Some (CStr (str b)), Some (CStr (str c)), Some (CInt d))).
Proof.
  eexists _, _. split; [apply (make_df_w pandas_unit lcg_draw pandas_unit_w)|].
  apply (X1_rows_keyed pandas_unit lcg_draw "w" 2 0 _ _
           (make_df_w pandas_unit lcg_draw pandas_unit_w 2 0)).
Defined.

Lemma X2_horizon_column_witness :
  ∃ df g', make_df pandas_unit lcg_draw "d" 2 0 = Ok (df, g') ∧
    ∃ hz,
      getitem df "horizon" = Ok (IntSeries hz) ∧
      len hz = index df ∧
      (∀ h, h ∈ hz → h ∈ horizons "d") ∧
      (∀ h, h ∈ horizons "d" →
         count (Z.eqb h) hz = 50 * 30 * Z.max 0 2 ∧
         len (horizons "d") * count (Z.eqb h) hz = index df).
Proof.
  eexists _, _. split; [apply (make_df_d pandas_unit lcg_draw pandas_unit_d)|].
  apply (X2_horizon_column pandas_unit lcg_draw "d" 2 0 _ _
           (make_df_d pandas_unit lcg_draw pandas_unit_d 2 0)).
Defined.

Lemma X3_rectangular_witness :
  ∃ df g', make_df pandas_unit lcg_draw "d" 2 0 = Ok (df, g') ∧
    column_names df
    = ["nowcast_date"; "horizon"; "location"; "lineage"; "output_type";
       "output_type_id"; "target_date"; "value"] ∧
    Forall (λ c, series_len c.2 = index df) (columns df) ∧
    (∀ (i : nat) key,
       is_Some (cell_at df i key) ↔ Z.of_nat i < index df ∧ key ∈ column_names df).
Proof.
  eexists _, _. split; [apply (make_df_d pandas_unit lcg_draw pandas_unit_d)|].
  apply (X3_rectangular pandas_unit lcg_draw "d" 2 0 _ _
           (make_df_d pandas_unit lcg_draw pandas_unit_d 2 0)).
Defined.

Lemma X4_value_draws_witness :
  ∃ df g', make_df pandas_unit lcg_draw "w" 2 0 = Ok (df, g') ∧
    ∃ vals,
      getitem df "value" = Ok (FloatSeries vals) ∧
      len vals = index df ∧
      (vals, g') = draws lcg_draw (Z.to_nat (index df)) 0 ∧
      ∀ i : nat, Z.of_nat i < index df →
        cell_at df i "value" = Some (CFloat (lcg_draw (draws lcg_draw i 0).2).1).
Proof.
  eexists _, _. split; [apply (make_df_w pandas_unit lcg_draw pandas_unit_w)|].
  apply (X4_value_draws pandas_unit lcg_draw "w" 2 0 _ _
           (make_df_w pandas_unit lcg_draw pandas_unit_w 2 0)).
Defined.

Lemma X5_sorted_by_time_witness :
  ∃ df g', make_df pandas_unit lcg_draw "w" 2 0 = Ok (df, g') ∧
    ∀ (i j : nat) hi hj ti tj,
      (i ≤ j)%nat →
      cell_at df i "horizon" = Some (CInt hi) →
      cell_at df j "horizon" = Some (CInt hj) →
      cell_at df i "target_date" = Some (CTime ti) →
      cell_at df j "target_date" = Some (CTime tj) →
      hi ≤ hj ∧ ti ≤ tj.
Proof.
  eexists _, _. split; [apply (make_df_w pandas_unit lcg_draw pandas_unit_w)|].
  apply (X5_sorted_by_time pandas_unit lcg_draw "w" 2 0 _ _ (7 * ns_per_day)
           pandas_unit_w ltac:(unfold ns_per_day; lia)
           (make_df_w pandas_unit lcg_draw pandas_unit_w 2 0)).
Defined.

Lemma X6_target_calendar_witness :
  ∃ df g', make_df pandas_unit lcg_draw "w" 2 0 = Ok (df, g') ∧
    ∀ (i : nat) t, cell_at df i "target_date" = Some (CTime t) →
      t mod ns_per_day = 0 ∧
      weekday t = weekday (timestamp_of_date 2024 1 26) ∧ weekday t = 5 ∧
      timestamp_of_date 2023 12 29 ≤ t ≤ timestamp_of_date 2024 2 2.
Proof.
  apply (X6_target_calendar pandas_unit lcg_draw pandas_unit_d pandas_unit_w 2 0).
Defined.

Lemma X7_driver_draws_witness :
  ∃ w' v1 v2 v3 v4,
    driver pandas_unit lcg_draw fresh_world = Ok (tt, w') ∧
    len v1 = 5250000 ∧ len v2 = 26250000 ∧ len v3 = 900000 ∧ len v4 = 4500000 ∧
    ((v1 ++ v2 ++ v3 ++ v4)%list, rng w')
    = draws lcg_draw (Z.to_nat 36900000) (rng fresh_world).
Proof.
  destruct (X7_driver_draws pandas_unit lcg_draw pandas_unit_d pandas_unit_w fresh_world)
    as (w' & df1 & df2 & df3 & df4 & v1 & v2 & v3 & v4 & Hrun
        & _ & _ & _ & _ & _ & _ & _ & _ & L1 & L2 & L3 & L4 & Hdraws).
  exists w', v1, v2, v3, v4.
  exact (conj Hrun (conj L1 (conj L2 (conj L3 (conj L4 Hdraws))))).
Defined.

Lemma X8_rerun_witness :
  ∃ w1 w2,
    driver pandas_unit lcg_draw fresh_world = Ok (tt, w1) ∧
    driver pandas_unit lcg_draw w1 = Ok (tt, w2) ∧
    dom (files w2) = dom (files w1) ∧
    ∀ path,
      (λ df, drop df "value") <$> files w2 !! path
      = (λ df, drop df "value") <$> files w1 !! path.
Proof.
  destruct (X8_rerun pandas_unit lcg_draw pandas_unit_d pandas_unit_w fresh_world)
    as (w1 & w2 & H1 & H2 & _ & Hdom & Hfiles).
  exists w1, w2. exact (conj H1 (conj H2 (conj Hdom Hfiles))).
Defined.
